(** * Ouroboros API client: retrying request dispatcher and execution poller

    A shallow embedding of [src/oo_interface/client.py]: the [APIError]
    exception, the [OuroborosClient] constructor, [_request] with its
    error normalisation and exponential-backoff retry, the thin endpoint
    wrappers built on it, and the polling loop [wait_for_execution].

    The HTTP library ([requests]), the clock ([time.time], [time.sleep])
    and the remote service are the environment.  They are modelled by an
    oracle for the transport (what the n-th call of [session.request]
    does and how long it takes) and by a world that carries a logical
    clock and the chronological trace of transport attempts and sleeps. *)

From Stdlib Require Import ZArith QArith String Ascii List DecimalString Lia.
From stdpp Require Import base option strings gmap.
From Equations Require Import Equations.

#[local] Set Warnings "-register-all".
#[local] Open Scope string_scope.
#[local] Open Scope list_scope.
#[local] Open Scope Z_scope.

(** ** Python values *)

(** What [json.loads] produces: [None], [bool], [int], [float], [str],
    [list] and [dict] with string keys.  A finite float is kept as the
    rational it denotes; only its truth value is ever inspected. *)
Inductive JSON : Type :=
| JNull
| JBool (b : bool)
| JInt (z : Z)
| JFloat (q : Q)
| JString (s : string)
| JArray (l : list JSON)
| JObject (m : gmap string JSON).

(** The empty dict [{}]. *)
Definition empty_dict : JSON := JObject ∅.

(** Python truth value ([bool(v)], as used by [details or {}]). *)
Definition py_bool (v : JSON) : bool :=
  match v with
  | JNull => false
  | JBool b => b
  | JInt z => negb (z =? 0)
  | JFloat q => negb (Qeq_bool q 0)
  | JString s => negb (String.eqb s "")
  | JArray l => match l with [] => false | _ => true end
  | JObject m => negb (bool_decide (m = ∅))
  end.

(** [v == s] for a [str] literal [s]: only the same string is equal. *)
Definition py_eq_str (v : JSON) (s : string) : bool :=
  match v with
  | JString s' => String.eqb s' s
  | _ => false
  end.

(** [str(n)] for an [int]. *)
Definition str_of_int (z : Z) : string := NilZero.string_of_int (Z.to_int z).

(** ** Exceptions *)

(** Exceptions that do not belong to this module: those of [requests]
    that derive from [requests.exceptions.RequestException], with their
    [str(e)], and any other class (a builtin [ValueError],
    [AttributeError], [TypeError], ...). *)
Inductive PyError : Type :=
| RequestException (msg : string)
| PyException (cls : string) (msg : string).

(** [class APIError(Exception)] with its three attributes.  [message] is
    typed [str] but [_request] may store any value taken from an error
    body, so it is a [JSON] value ([JString] for a string). *)
Inductive Exn : Type :=
| APIError (message : JSON) (status_code : option Z) (details : JSON)
| Foreign (e : PyError).

(** [APIError.__init__]: [self.details = details or {}]. *)
Definition APIError_init (message : JSON) (status_code : option Z)
    (details : option JSON) : Exn :=
  APIError message status_code
    (match details with
     | Some d => if py_bool d then d else empty_dict
     | None => empty_dict
     end).

(** Outcome of a call: a returned value or a raised exception. *)
Inductive Res (A : Type) : Type :=
| Return (a : A)
| Raise (e : Exn).
Arguments Return {A} a.
Arguments Raise {A} e.

(** ** Dict and container operations used by the client *)

Definition AttributeError {A} (what : string) : Res A :=
  Raise (Foreign (PyException "AttributeError" what)).
Definition TypeError {A} (what : string) : Res A :=
  Raise (Foreign (PyException "TypeError" what)).
Definition KeyError {A} (key : string) : Res A :=
  Raise (Foreign (PyException "KeyError" key)).
Definition ValueError {A} (what : string) : Res A :=
  Raise (Foreign (PyException "ValueError" what)).

(** [v.get(k, dflt)]: only a dict has [get]. *)
Definition py_get (v : JSON) (k : string) (dflt : JSON) : Res JSON :=
  match v with
  | JObject m => Return (default dflt (m !! k))
  | _ => AttributeError "object has no attribute 'get'"
  end.

(** Substring test, for [k in s] on a [str]. *)
Definition is_substring (k s : string) : bool :=
  match String.index 0 k s with Some _ => true | None => false end.

(** [k in v] for a [str] literal [k]. *)
Definition py_in (k : string) (v : JSON) : Res bool :=
  match v with
  | JObject m => Return (bool_decide (is_Some (m !! k)))
  | JString s => Return (is_substring k s)
  | JArray l => Return (existsb (fun x => py_eq_str x k) l)
  | _ => TypeError "argument is not iterable"
  end.

(** [v[k]] for a [str] literal [k]. *)
Definition py_getitem (v : JSON) (k : string) : Res JSON :=
  match v with
  | JObject m =>
      match m !! k with
      | Some x => Return x
      | None => KeyError k
      end
  | _ => TypeError "indices must be integers"
  end.

(** ** Requests, responses and the transport *)

(** A value of the [params] dict of a wrapper: an [int] or a [str]. *)
Inductive ParamValue : Type :=
| PInt (z : Z)
| PStr (s : string).

(** The keyword arguments of [session.request]. *)
Record Request : Type := mkRequest {
  req_method : string;
  req_url : string;
  req_json : option JSON;
  req_params : option (gmap string ParamValue);
  req_timeout : Z
}.

(** What the client reads of a [requests.Response]: [status_code],
    [content] (the raw body) and the outcome of [json()], either the
    parsed value or the decoding error it raises.  From requests 2.27 on
    that error is [requests.exceptions.JSONDecodeError], a
    [RequestException]; before, it is a plain [ValueError]. *)
Record Response : Type := mkResponse {
  status_code : Z;
  content : string;
  json : PyError + JSON
}.

(** One call of [session.request]: it raises or it returns a response. *)
Inductive Transport : Type :=
| Raises (e : PyError)
| Responds (r : Response).

(** ** The world: logical clock and trace *)

Inductive Event : Type :=
| Sent (r : Request)
| Slept (seconds : Z).

Record World : Type := mkWorld {
  now : Z;
  trace : list Event
}.

(** The requests sent, in order. *)
Fixpoint sent_requests (t : list Event) : list Request :=
  match t with
  | [] => []
  | Sent r :: t' => r :: sent_requests t'
  | Slept _ :: t' => sent_requests t'
  end.

(** The durations slept, in order. *)
Fixpoint sleeps (t : list Event) : list Z :=
  match t with
  | [] => []
  | Slept d :: t' => d :: sleeps t'
  | Sent _ :: t' => sleeps t'
  end.

(** Number of transport attempts recorded in a trace. *)
Definition attempts (t : list Event) : nat := length (sent_requests t).

(** [time.sleep(d)]: a negative duration is a [ValueError]; otherwise the
    clock advances by [d]. *)
Definition sleep (d : Z) (w : World) : Res unit * World :=
  if d <? 0
  then (ValueError "sleep length must be non-negative", w)
  else (Return tt, {| now := now w + d; trace := trace w ++ [Slept d] |}).

(** ** The client *)

Record OuroborosClient : Type := mkClient {
  api_base_url : string;
  timeout : Z;
  max_retries : Z
}.

(** [s.rstrip('/')], for any single character. *)
Fixpoint rstrip (c : ascii) (s : string) : string :=
  match s with
  | EmptyString => EmptyString
  | String a s' =>
      match rstrip c s' with
      | EmptyString => if Ascii.eqb a c then EmptyString else String a EmptyString
      | r => String a r
      end
  end.

(** [OuroborosClient.__init__]. *)
Definition init (api_base_url : string) (timeout max_retries : Z) : OuroborosClient :=
  {| api_base_url := rstrip "/"%char api_base_url;
     timeout := timeout;
     max_retries := max_retries |}.

(** The default arguments of the constructor. *)
Definition default_client : OuroborosClient := init "http://localhost:5001" 300 3.

(** The message block of [_request] (the assignment and the inner
    [try ... except: pass]).  Any exception inside the block leaves
    [error_message] at its initial value. *)
Definition extract_error_message (response : Response) : JSON :=
  let error_message :=
    JString ("Request failed with status " +:+ str_of_int (status_code response)) in
  match json response with
  | inl _ => error_message
  | inr error_data =>
      match py_in "error" error_data with
      | Raise _ => error_message
      | Return true =>
          match py_getitem error_data "error" with
          | Raise _ => error_message
          | Return err =>
              match py_get err "message" error_message with
              | Raise _ => error_message
              | Return m => m
              end
          end
      | Return false =>
          match py_in "message" error_data with
          | Raise _ => error_message
          | Return true =>
              match py_getitem error_data "message" with
              | Raise _ => error_message
              | Return m => m
              end
          | Return false => error_message
          end
      end
  end.

(** The part of the [try] block of [_request] that follows the transport
    call: the HTTP error branch and the parse of a successful body. *)
Definition handle_response (response : Response) : Res JSON :=
  if status_code response >=? 400 then
    let error_message := extract_error_message response in
    match (if negb (String.eqb (content response) "")
           then json response else inr empty_dict) with
    | inl e => Raise (Foreign e)
    | inr details =>
        Raise (APIError_init error_message (Some (status_code response)) (Some details))
    end
  else
    match json response with
    | inl e => Raise (Foreign e)
    | inr v => Return v
    end.

(** The whole [try] block, given what the transport call did. *)
Definition try_block (t : Transport) : Res JSON :=
  match t with
  | Raises e => Raise (Foreign e)
  | Responds response => handle_response response
  end.

(** The keyword arguments that [_request] passes to [session.request]:
    the URL is the f-string [f"{self.api_base_url}{endpoint}"]. *)
Definition request_of (self : OuroborosClient) (method endpoint : string)
    (data : option JSON) (params : option (gmap string ParamValue)) : Request :=
  {| req_method := method;
     req_url := api_base_url self +:+ endpoint;
     req_json := data;
     req_params := params;
     req_timeout := timeout self |}.

(** The error raised once the retries are used up:
    [APIError(f"Network error: {str(e)}")]. *)
Definition network_error (e : string) : Exn :=
  APIError_init (JString ("Network error: " +:+ e)) None None.

(** [sep.join(l)] for a list of strings. *)
Fixpoint str_join (sep : string) (l : list string) : string :=
  match l with
  | [] => ""
  | [x] => x
  | x :: l' => x +:+ sep +:+ str_join sep l'
  end.

(** Truth value of an [Optional[str]] argument. *)
Definition truthy_str (o : option string) : bool :=
  match o with Some s => negb (String.eqb s "") | None => false end.

(** Truth value of an [Optional[List[str]]] argument. *)
Definition truthy_list (o : option (list string)) : bool :=
  match o with Some (_ :: _) => true | _ => false end.

(** The [params] dict built by [list_graphs]. *)
Definition list_graphs_params (category : option string)
    (tags : option (list string)) (limit offset : Z) : gmap string ParamValue :=
  let params := <["offset" := PInt offset]> (<["limit" := PInt limit]> ∅) in
  let params :=
    if truthy_str category
    then <["category" := PStr (default "" category)]> params else params in
  let params :=
    if truthy_list tags
    then <["tags" := PStr (str_join "," (default [] tags))]> params else params in
  params.

(** The [params] dict built by [list_workflows]. *)
Definition list_workflows_params (category : option string)
    (tags : option (list string)) (search : option string) (status : string)
    (limit offset : Z) : gmap string ParamValue :=
  let params :=
    <["status" := PStr status]>
      (<["offset" := PInt offset]> (<["limit" := PInt limit]> ∅)) in
  let params :=
    if truthy_str category
    then <["category" := PStr (default "" category)]> params else params in
  let params :=
    if truthy_list tags
    then <["tags" := PStr (str_join "," (default [] tags))]> params else params in
  let params :=
    if truthy_str search
    then <["search" := PStr (default "" search)]> params else params in
  params.

Section Environment.

(** What the [n]-th call of [session.request] (counted from 0 over the
    whole run) does with a request, and how long it takes. *)
Variable session_request : nat -> Request -> Transport.
Variable duration : nat -> Z.

(** [self.session.request(...)]. *)
Definition send (r : Request) (w : World) : Transport * World :=
  let n := attempts (trace w) in
  (session_request n r,
   {| now := now w + duration n; trace := trace w ++ [Sent r] |}).

(** [OuroborosClient._request].  The recursion is the source's: a retry
    is the same call with [retry_count + 1], and it happens only while
    [retry_count < max_retries].  The [logger.warning] before the sleep
    has no effect on the outcome and is left out.  Every caller starts at
    [retry_count = 0]; [2 ^ retry_count] is Python's [2 ** retry_count]
    for the non-negative counts that arise from there. *)
Equations? _request (self : OuroborosClient) (method endpoint : string)
    (data : option JSON) (params : option (gmap string ParamValue))
    (retry_count : Z) (w : World) : Res JSON * World
    by wf (Z.to_nat (max_retries self - retry_count)) lt :=
  _request self method endpoint data params retry_count w
    with send (request_of self method endpoint data params) w => {
    | (t, w1) with try_block t => {
      | Raise (Foreign (RequestException e))
          with Z_lt_dec retry_count (max_retries self) => {
        | left _ with sleep (2 ^ retry_count) w1 => {
          | (Return _, w2) :=
              _request self method endpoint data params (retry_count + 1) w2
          | (Raise e', w2) := (Raise e', w2) }
        | right _ := (Raise (network_error e), w1) }
      | r := (r, w1) } }.
Proof. lia. Qed.

(** [check_health]: an [APIError] of the request is answered [False];
    any other exception propagates. *)
Definition check_health (self : OuroborosClient) (w : World) : Res bool * World :=
  match _request self "GET" "/health" None None 0 w with
  | (Return response, w') =>
      match py_get response "status" JNull with
      | Return v => (Return (py_eq_str v "healthy"), w')
      | Raise e => (Raise e, w')
      end
  | (Raise (APIError _ _ _), w') => (Return false, w')
  | (Raise e, w') => (Raise e, w')
  end.

(** [list_graphs]. *)
Definition list_graphs (self : OuroborosClient) (category : option string)
    (tags : option (list string)) (limit offset : Z) (w : World) : Res JSON * World :=
  match _request self "GET" "/graphs" None
          (Some (list_graphs_params category tags limit offset)) 0 w with
  | (Return response, w') => (py_get response "graphs" (JArray []), w')
  | (Raise e, w') => (Raise e, w')
  end.

(** [list_workflows]. *)
Definition list_workflows (self : OuroborosClient) (category : option string)
    (tags : option (list string)) (search : option string) (status : string)
    (limit offset : Z) (w : World) : Res JSON * World :=
  match _request self "GET" "/workflows" None
          (Some (list_workflows_params category tags search status limit offset)) 0 w with
  | (Return response, w') => (py_get response "workflows" (JArray []), w')
  | (Raise e, w') => (Raise e, w')
  end.

(** [get_execution_status] and [get_execution_info]. *)
Definition get_execution_status (self : OuroborosClient) (execution_id : string)
    (w : World) : Res JSON * World :=
  _request self "GET" ("/executions/" +:+ execution_id) None None 0 w.

Definition get_execution_info (self : OuroborosClient) (execution_id : string)
    (w : World) : Res JSON * World :=
  _request self "GET" ("/executions/" +:+ execution_id +:+ "/info") None None 0 w.

(** Python's [repr] of a float, a list or a dict, as [str()] prints
    them inside an f-string; it is not interpreted. *)
Variable py_repr : JSON -> string.

(** [str(v)], as an f-string formats a value. *)
Definition py_str (v : JSON) : string :=
  match v with
  | JString s => s
  | JNull => "None"
  | JBool true => "True"
  | JBool false => "False"
  | JInt z => str_of_int z
  | _ => py_repr v
  end.

(** The three errors that [wait_for_execution] raises itself. *)
Definition timeout_error (max_wait : Z) : Exn :=
  APIError_init
    (JString ("Execution timeout after " +:+ str_of_int max_wait +:+ " seconds"))
    None None.
Definition failed_error (reason : JSON) : Exn :=
  APIError_init (JString ("Execution failed: " +:+ py_str reason)) None None.
Definition cancelled_error : Exn :=
  APIError_init (JString "Execution was cancelled") None None.

(** The [while True] loop of [wait_for_execution].  The loop has no
    bound of its own, so the model takes a number of iterations it may
    run; [None] means that this number did not suffice. *)
Fixpoint wait_loop (fuel : nat) (self : OuroborosClient) (execution_id : string)
    (poll_interval max_wait start_time : Z) (w : World) : option (Res JSON * World) :=
  match fuel with
  | O => None
  | S fuel' =>
      if now w - start_time >? max_wait then
        Some (Raise (timeout_error max_wait), w)
      else
        match get_execution_status self execution_id w with
        | (Raise e, w1) => Some (Raise e, w1)
        | (Return status, w1) =>
            match py_get status "status" JNull with
            | Raise e => Some (Raise e, w1)
            | Return execution_status =>
                if py_eq_str execution_status "completed" then
                  Some (get_execution_info self execution_id w1)
                else if py_eq_str execution_status "failed" then
                  match py_get status "error" (JString "Unknown error") with
                  | Raise e => Some (Raise e, w1)
                  | Return reason => Some (Raise (failed_error reason), w1)
                  end
                else if py_eq_str execution_status "cancelled" then
                  Some (Raise cancelled_error, w1)
                else
                  match sleep poll_interval w1 with
                  | (Raise e, w2) => Some (Raise e, w2)
                  | (Return _, w2) =>
                      wait_loop fuel' self execution_id poll_interval max_wait
                        start_time w2
                  end
            end
        end
  end.

(** [wait_for_execution]: [start_time = time.time()], then the loop. *)
Definition wait_for_execution (fuel : nat) (self : OuroborosClient)
    (execution_id : string) (poll_interval max_wait : Z) (w : World)
    : option (Res JSON * World) :=
  wait_loop fuel self execution_id poll_interval max_wait (now w) w.

End Environment.

(** ** Specification vocabulary *)

(** The events of a request that is attempted, fails transiently [k]
    times and is retried each time, starting at retry count [rc]: every
    retry is preceded by a sleep of [2 ^ rc], [2 ^ (rc + 1)], ... *)
Fixpoint backoff_events (req : Request) (rc : Z) (k : nat) : list Event :=
  match k with
  | O => [Sent req]
  | S k' => Sent req :: Slept (2 ^ rc) :: backoff_events req (rc + 1) k'
  end.

(** The [str(e)] of a transient failure of the [try] block, if it is one. *)
Definition transient (r : Res JSON) : option string :=
  match r with
  | Raise (Foreign (RequestException e)) => Some e
  | _ => None
  end.

(** What [_request] answers when its last attempt ended as [r]. *)
Definition settle (r : Res JSON) : Res JSON :=
  match r with
  | Raise (Foreign (RequestException e)) => Raise (network_error e)
  | _ => r
  end.

(** Sum of a list of durations. *)
Definition total (l : list Z) : Z := fold_right Z.add 0 l.

(** The terminal statuses of [wait_for_execution]. *)
Definition terminal (execution_status : JSON) : bool :=
  py_eq_str execution_status "completed"
  || py_eq_str execution_status "failed"
  || py_eq_str execution_status "cancelled".

(** A string of [n] slashes. *)
Fixpoint slashes (n : nat) : string :=
  match n with
  | O => EmptyString
  | S n' => String "/"%char (slashes n')
  end.

(** The world after a sleep of [d] that did not raise. *)
Definition after_sleep (d : Z) (w : World) : World :=
  {| now := now w + d; trace := trace w ++ [Slept d] |}.

(** [polled n w w']: from world [w], [n] successive status fetches each
    found the deadline not exceeded and were answered with a document
    whose [status] is not terminal; [w'] is the world after the sleep
    that follows the last of them. *)
Inductive polled (session_request : nat -> Request -> Transport)
    (duration : nat -> Z) (self : OuroborosClient) (execution_id : string)
    (poll_interval max_wait start_time : Z) : nat -> World -> World -> Prop :=
| polled_O w : polled session_request duration self execution_id
                 poll_interval max_wait start_time O w w
| polled_S n w status w1 w' :
    now w - start_time <= max_wait ->
    get_execution_status session_request duration self execution_id w =
      (Return (JObject status), w1) ->
    terminal (default JNull (status !! "status")) = false ->
    polled session_request duration self execution_id
      poll_interval max_wait start_time n (after_sleep poll_interval w1) w' ->
    polled session_request duration self execution_id
      poll_interval max_wait start_time (S n) w w'.

(** The message precedence that [extract_error_message] is compared
    with: the [error] key of a JSON object body decides first ([message]
    of that value when it is an object that has one, else the generic
    text); without an [error] key the [message] key of the body is used;
    in every other case the text is generic. *)
Definition error_message_spec (response : Response) : JSON :=
  let generic :=
    JString ("Request failed with status " +:+ str_of_int (status_code response)) in
  match json response with
  | inr (JObject body) =>
      match body !! "error" with
      | Some (JObject err) => default generic (err !! "message")
      | Some _ => generic
      | None => default generic (body !! "message")
      end
  | _ => generic
  end.

(** ** Sample environments *)

Definition world0 : World := {| now := 0; trace := [] |}.

Definition no_delay : nat -> Z := fun _ => 0.

(** A transport that refuses every connection. *)
Definition refused : nat -> Request -> Transport :=
  fun _ _ => Raises (RequestException "Connection refused").

(** A transport that always answers with the same response. *)
Definition respond_always (r : Response) : nat -> Request -> Transport :=
  fun _ _ => Responds r.

(** [str(e)] of the decoding error of a body that is not JSON. *)
Definition expecting_value : string := "Expecting value: line 1 column 1 (char 0)".

(** A 404 whose body is an HTML page; [json()] raises the decoding error
    of requests 2.27 and later, which is a [RequestException]. *)
Definition html_404 : Response :=
  {| status_code := 404;
     content := "<html>Not Found</html>";
     json := inl (RequestException expecting_value) |}.

(** The same 404 under an older requests, whose decoding error is a
    plain [ValueError]. *)
Definition html_404_legacy : Response :=
  {| status_code := 404;
     content := "<html>Not Found</html>";
     json := inl (PyException "ValueError" expecting_value) |}.

(** A 404 with a JSON body. *)
Definition json_404 : Response :=
  {| status_code := 404;
     content := "{...}";
     json := inr (JObject (<["message" := JString "no such graph"]> ∅)) |}.

(** A 200 whose body is not JSON. *)
Definition garbled_200 : Response :=
  {| status_code := 200;
     content := "not json";
     json := inl (RequestException expecting_value) |}.

(** The same 200 under an older requests, whose decoding error is a
    plain [ValueError]. *)
Definition garbled_200_legacy : Response :=
  {| status_code := 200;
     content := "not json";
     json := inl (PyException "ValueError" expecting_value) |}.

(** Transport calls that take 100 units of time each. *)
Definition slow : nat -> Z := fun _ => 100.

(** A 200 with a JSON body [v]. *)
Definition ok_200 (v : JSON) : Response :=
  {| status_code := 200; content := "..."; json := inr v |}.

(** 400 responses with the bodies
    [{"error": {"message": "bad field"}}], [{"message": "oops"}],
    [{"error": {}, "message": "oops"}], an empty body and a body that is
    not JSON. *)
Definition bad_field_400 : Response :=
  {| status_code := 400;
     content := "{...}";
     json := inr (JObject (<["error" := JObject (<["message" := JString "bad field"]> ∅)]> ∅)) |}.

Definition oops_400 : Response :=
  {| status_code := 400;
     content := "{...}";
     json := inr (JObject (<["message" := JString "oops"]> ∅)) |}.

Definition error_without_message_400 : Response :=
  {| status_code := 400;
     content := "{...}";
     json := inr (JObject (<["error" := JObject ∅]> (<["message" := JString "oops"]> ∅))) |}.

Definition empty_400 : Response :=
  {| status_code := 400;
     content := "";
     json := inl (RequestException expecting_value) |}.

Definition garbled_400 : Response :=
  {| status_code := 400;
     content := "Bad Request";
     json := inl (RequestException expecting_value) |}.

(** The status document [{"status": s}]. *)
Definition status_doc (s : string) : JSON := JObject (<["status" := JString s]> ∅).

(** A service that reports the statuses [running], [queued],
    [completed] to the first three calls and then serves the execution
    details. *)
Definition execution_details : JSON := JObject (<["result" := JInt 42]> ∅).

Definition three_polls : nat -> Request -> Transport :=
  fun n _ =>
    match n with
    | 0%nat => Responds (ok_200 (status_doc "running"))
    | 1%nat => Responds (ok_200 (status_doc "queued"))
    | 2%nat => Responds (ok_200 (status_doc "completed"))
    | _ => Responds (ok_200 execution_details)
    end.

(** A transport that answers every call with a 200 whose body is the
    JSON list [[]]. *)
Definition answers_list : nat -> Request -> Transport :=
  respond_always (ok_200 (JArray [])).

(** A service whose execution is already completed: the first call
    reports so and the next ones serve the execution details. *)
Definition finished : nat -> Request -> Transport :=
  fun n _ =>
    match n with
    | 0%nat => Responds (ok_200 (status_doc "completed"))
    | _ => Responds (ok_200 execution_details)
    end.

(** A transport whose first two calls are refused and which then
    serves the execution details. *)
Definition flaky : nat -> Request -> Transport :=
  fun n _ =>
    match n with
    | 0%nat | 1%nat => Raises (RequestException "Connection refused")
    | _ => Responds (ok_200 execution_details)
    end.

(** A transport call that fails with an exception of another class. *)
Definition broken : nat -> Request -> Transport :=
  fun _ _ => Raises (PyException "TypeError" "Object of type set is not JSON serializable").

(** A stand-in for Python's [repr]. *)
Definition no_repr : JSON -> string := fun _ => "...".

(** ** The other endpoint wrappers *)

(** [d or {}] for an [Optional[Dict]] argument, as in
    ['config': config or {}]. *)
Definition or_empty_dict (o : option JSON) : JSON :=
  match o with
  | Some d => if py_bool d then d else empty_dict
  | None => empty_dict
  end.

(** The statement [if x: params[k] = x] for an [Optional[str]]. *)
Definition set_if (k : string) (x : option string)
    (params : gmap string ParamValue) : gmap string ParamValue :=
  if truthy_str x then <[k := PStr (default "" x)]> params else params.

(** The payloads of [execute_graph], [execute_workflow] and
    [execute_mcp_tool]. *)
Definition execute_graph_payload (input_data : JSON) (config : option JSON)
    (async_execution : bool) : JSON :=
  JObject (<["async" := JBool async_execution]>
             (<["config" := or_empty_dict config]>
                (<["input" := input_data]> ∅))).

Definition execute_workflow_payload (inputs : JSON) (config metadata : option JSON) : JSON :=
  JObject (<["metadata" := or_empty_dict metadata]>
             (<["config" := or_empty_dict config]>
                (<["inputs" := inputs]> ∅))).

Definition execute_mcp_tool_payload (tool_id : string) (input_data : JSON)
    (config : option JSON) : JSON :=
  JObject (<["config" := or_empty_dict config]>
             (<["input" := input_data]>
                (<["tool_id" := JString tool_id]> ∅))).

(** The [data] dict of [cancel_execution]: empty unless a reason is
    given, and then with [graceful] set as well. *)
Definition cancel_execution_data (reason : option string) : JSON :=
  if truthy_str reason
  then JObject (<["graceful" := JBool true]>
                  (<["reason" := JString (default "" reason)]> ∅))
  else JObject ∅.

(** The [params] dicts of the remaining wrappers. *)
Definition get_workflow_analytics_params (start_date end_date : option string)
    (granularity : string) : gmap string ParamValue :=
  set_if "end_date" end_date
    (set_if "start_date" start_date (<["granularity" := PStr granularity]> ∅)).

Definition get_execution_events_params (event_type : option string)
    (limit offset : Z) : gmap string ParamValue :=
  set_if "event_type" event_type
    (<["offset" := PInt offset]> (<["limit" := PInt limit]> ∅)).

Definition list_executions_params (workflow_slug status : option string)
    (limit : Z) : gmap string ParamValue :=
  set_if "status" status
    (set_if "workflow_slug" workflow_slug (<["limit" := PInt limit]> ∅)).

Definition get_step_execution_metrics_params
    (workflow_slug start_date end_date : option string) : gmap string ParamValue :=
  set_if "end_date" end_date
    (set_if "start_date" start_date (set_if "workflow_slug" workflow_slug ∅)).

Definition get_mcp_tools_params (server : option string) : gmap string ParamValue :=
  set_if "server" server ∅.

Definition list_workspace_files_params (directory extension : option string)
    (limit : Z) : gmap string ParamValue :=
  set_if "extension" extension
    (set_if "directory" directory (<["limit" := PInt limit]> ∅)).

Definition list_checkpoints_params (workflow_slug execution_id : option string)
    (limit offset : Z) : gmap string ParamValue :=
  set_if "execution_id" execution_id
    (set_if "workflow_slug" workflow_slug
       (<["offset" := PInt offset]> (<["limit" := PInt limit]> ∅))).

(** [return response.get(key, [])] after a request. *)
Definition response_get (key : string) (r : Res JSON * World) : Res JSON * World :=
  match r with
  | (Return response, w') => (py_get response key (JArray []), w')
  | (Raise e, w') => (Raise e, w')
  end.

Section Endpoints.

Variable session_request : nat -> Request -> Transport.
Variable duration : nat -> Z.

#[local] Abbreviation request := (_request session_request duration).

Definition execute_graph (self : OuroborosClient) (graph_name : string)
    (input_data : JSON) (config : option JSON) (async_execution : bool) (w : World) :=
  request self "POST" ("/graphs/" +:+ graph_name +:+ "/execute")
    (Some (execute_graph_payload input_data config async_execution)) None 0 w.

Definition execute_workflow (self : OuroborosClient) (workflow_slug : string)
    (inputs : JSON) (config metadata : option JSON) (w : World) :=
  request self "POST" ("/workflows/" +:+ workflow_slug +:+ "/execute")
    (Some (execute_workflow_payload inputs config metadata)) None 0 w.

Definition get_execution_events (self : OuroborosClient) (execution_id : string)
    (event_type : option string) (limit offset : Z) (w : World) :=
  response_get "events"
    (request self "GET" ("/executions/" +:+ execution_id +:+ "/events") None
       (Some (get_execution_events_params event_type limit offset)) 0 w).

Definition cancel_execution (self : OuroborosClient) (execution_id : string)
    (reason : option string) (w : World) :=
  request self "POST" ("/executions/" +:+ execution_id +:+ "/cancel")
    (Some (cancel_execution_data reason)) None 0 w.

Definition get_execution_steps (self : OuroborosClient) (execution_id : string)
    (w : World) :=
  response_get "step_executions"
    (request self "GET" ("/executions/" +:+ execution_id +:+ "/steps") None None 0 w).

Definition list_executions (self : OuroborosClient) (workflow_slug status : option string)
    (limit : Z) (w : World) :=
  response_get "executions"
    (request self "GET" "/executions" None
       (Some (list_executions_params workflow_slug status limit)) 0 w).

Definition list_mcp_servers (self : OuroborosClient) (w : World) :=
  response_get "mcp_servers" (request self "GET" "/mcp-servers" None None 0 w).

Definition get_mcp_tools (self : OuroborosClient) (server : option string) (w : World) :=
  response_get "tools"
    (request self "GET" "/mcp-servers/tools" None
       (Some (get_mcp_tools_params server)) 0 w).

Definition execute_mcp_tool (self : OuroborosClient) (tool_id : string)
    (input_data : JSON) (config : option JSON) (w : World) :=
  request self "POST" "/mcp-tools/execute"
    (Some (execute_mcp_tool_payload tool_id input_data config)) None 0 w.

Definition list_workspace_files (self : OuroborosClient) (workspace_name : string)
    (directory extension : option string) (limit : Z) (w : World) :=
  response_get "files"
    (request self "GET" ("/service/workspaces/" +:+ workspace_name +:+ "/files") None
       (Some (list_workspace_files_params directory extension limit)) 0 w).

Definition list_checkpoints (self : OuroborosClient) (workflow_slug execution_id : option string)
    (limit offset : Z) (w : World) :=
  response_get "checkpoints"
    (request self "GET" "/workflows/checkpoints" None
       (Some (list_checkpoints_params workflow_slug execution_id limit offset)) 0 w).

Variable py_repr : JSON -> string.

(** [APIError.__str__]: the status code is shown when it is truthy. *)
Definition APIError_str (message : JSON) (status_code : option Z) : string :=
  match status_code with
  | Some code =>
      if code =? 0
      then "API Error: " +:+ py_str py_repr message
      else "API Error [" +:+ str_of_int code +:+ "]: " +:+ py_str py_repr message
  | None => "API Error: " +:+ py_str py_repr message
  end.

End Endpoints.

(** The nine operations that return [response.get(key, [])], with their
    arguments. *)
Inductive Listing : Type :=
| ListGraphs (category : option string) (tags : option (list string)) (limit offset : Z)
| ListWorkflows (category : option string) (tags : option (list string))
    (search : option string) (status : string) (limit offset : Z)
| ExecutionEvents (execution_id : string) (event_type : option string) (limit offset : Z)
| ExecutionSteps (execution_id : string)
| ListExecutions (workflow_slug status : option string) (limit : Z)
| McpServers
| McpTools (server : option string)
| WorkspaceFiles (workspace_name : string) (directory extension : option string) (limit : Z)
| Checkpoints (workflow_slug execution_id : option string) (limit offset : Z).

(** The call of the operation. *)
Definition run_listing (session_request : nat -> Request -> Transport)
    (duration : nat -> Z) (self : OuroborosClient) (op : Listing) (w : World)
    : Res JSON * World :=
  match op with
  | ListGraphs category tags limit offset =>
      list_graphs session_request duration self category tags limit offset w
  | ListWorkflows category tags search status limit offset =>
      list_workflows session_request duration self category tags search status limit offset w
  | ExecutionEvents execution_id event_type limit offset =>
      get_execution_events session_request duration self execution_id event_type limit offset w
  | ExecutionSteps execution_id =>
      get_execution_steps session_request duration self execution_id w
  | ListExecutions workflow_slug status limit =>
      list_executions session_request duration self workflow_slug status limit w
  | McpServers => list_mcp_servers session_request duration self w
  | McpTools server => get_mcp_tools session_request duration self server w
  | WorkspaceFiles workspace_name directory extension limit =>
      list_workspace_files session_request duration self workspace_name directory
        extension limit w
  | Checkpoints workflow_slug execution_id limit offset =>
      list_checkpoints session_request duration self workflow_slug execution_id limit offset w
  end.

(** The key that the operation reads from the response, and the endpoint
    and query it asks. *)
Definition listing_key (op : Listing) : string :=
  match op with
  | ListGraphs _ _ _ _ => "graphs"
  | ListWorkflows _ _ _ _ _ _ => "workflows"
  | ExecutionEvents _ _ _ _ => "events"
  | ExecutionSteps _ => "step_executions"
  | ListExecutions _ _ _ => "executions"
  | McpServers => "mcp_servers"
  | McpTools _ => "tools"
  | WorkspaceFiles _ _ _ _ => "files"
  | Checkpoints _ _ _ _ => "checkpoints"
  end.

Definition listing_endpoint (op : Listing) : string :=
  match op with
  | ListGraphs _ _ _ _ => "/graphs"
  | ListWorkflows _ _ _ _ _ _ => "/workflows"
  | ExecutionEvents execution_id _ _ _ => "/executions/" +:+ execution_id +:+ "/events"
  | ExecutionSteps execution_id => "/executions/" +:+ execution_id +:+ "/steps"
  | ListExecutions _ _ _ => "/executions"
  | McpServers => "/mcp-servers"
  | McpTools _ => "/mcp-servers/tools"
  | WorkspaceFiles workspace_name _ _ _ =>
      "/service/workspaces/" +:+ workspace_name +:+ "/files"
  | Checkpoints _ _ _ _ => "/workflows/checkpoints"
  end.

Definition listing_params (op : Listing) : option (gmap string ParamValue) :=
  match op with
  | ListGraphs category tags limit offset =>
      Some (list_graphs_params category tags limit offset)
  | ListWorkflows category tags search status limit offset =>
      Some (list_workflows_params category tags search status limit offset)
  | ExecutionEvents _ event_type limit offset =>
      Some (get_execution_events_params event_type limit offset)
  | ExecutionSteps _ => None
  | ListExecutions workflow_slug status limit =>
      Some (list_executions_params workflow_slug status limit)
  | McpServers => None
  | McpTools server => Some (get_mcp_tools_params server)
  | WorkspaceFiles _ directory extension limit =>
      Some (list_workspace_files_params directory extension limit)
  | Checkpoints workflow_slug execution_id limit offset =>
      Some (list_checkpoints_params workflow_slug execution_id limit offset)
  end.

(** A query value that is present exactly when the optional argument is
    a non-empty string. *)
Definition optional_key (params : gmap string ParamValue) (k : string)
    (x : option string) : Prop :=
  params !! k = (if truthy_str x then PStr <$> x else None).

(** The time that the events [t] take when the first of them happens
    after [n] transport calls: a sleep takes its duration, a transport
    call what the environment says. *)
Fixpoint time_of (duration : nat -> Z) (n : nat) (t : list Event) : Z :=
  match t with
  | [] => 0
  | Sent _ :: t' => duration n + time_of duration (S n) t'
  | Slept d :: t' => d + time_of duration n t'
  end.

(** ** Traces *)

Lemma sent_requests_app t1 t2 :
  sent_requests (t1 ++ t2) = sent_requests t1 ++ sent_requests t2.
Proof.
  induction t1 as [|[r|d] t1 IH]; simpl; [reflexivity | f_equal; exact IH | exact IH].
Qed.

Lemma sleeps_app t1 t2 : sleeps (t1 ++ t2) = sleeps t1 ++ sleeps t2.
Proof.
  induction t1 as [|[r|d] t1 IH]; simpl; [reflexivity | exact IH | f_equal; exact IH].
Qed.

Lemma attempts_app t1 t2 : attempts (t1 ++ t2) = (attempts t1 + attempts t2)%nat.
Proof. unfold attempts. rewrite sent_requests_app. apply length_app. Qed.

Lemma total_app l1 l2 : total (l1 ++ l2) = total l1 + total l2.
Proof. unfold total. induction l1 as [|x l1 IH]; simpl; lia. Qed.

Lemma sent_requests_backoff req rc k :
  sent_requests (backoff_events req rc k) = replicate (S k) req.
Proof.
  revert rc. induction k as [|k IH]; intros rc; simpl; [reflexivity|].
  f_equal. apply IH.
Qed.

Lemma attempts_backoff req rc k : attempts (backoff_events req rc k) = S k.
Proof. unfold attempts. rewrite sent_requests_backoff. apply length_replicate. Qed.

Lemma sleeps_backoff req rc k :
  sleeps (backoff_events req rc k) = map (fun i => 2 ^ (rc + Z.of_nat i)) (seq 0 k).
Proof.
  revert rc. induction k as [|k IH]; intros rc; simpl; [reflexivity|].
  rewrite Z.add_0_r. f_equal. rewrite IH, <- seq_shift, map_map.
  apply map_ext. intros i. f_equal. lia.
Qed.

Lemma total_sleeps_backoff req k :
  total (sleeps (backoff_events req 0 k)) = 2 ^ Z.of_nat k - 1.
Proof.
  rewrite sleeps_backoff. induction k as [|k IH]; [reflexivity|].
  rewrite seq_S, map_app, total_app, IH.
  rewrite Nat2Z.inj_succ, Z.pow_succ_r by lia.
  cbn [map total fold_right Nat.add]. rewrite !Z.add_0_l, Z.add_0_r. lia.
Qed.

Lemma sleep_nonneg d w :
  0 <= d ->
  sleep d w = (Return tt, {| now := now w + d; trace := trace w ++ [Slept d] |}).
Proof. intros Hd. unfold sleep. destruct (Z.ltb_spec d 0); [lia | reflexivity]. Qed.

(** ** The dispatcher [_request] *)

Section Dispatcher.

Variable session_request : nat -> Request -> Transport.
Variable duration : nat -> Z.

#[local] Abbreviation request := (_request session_request duration).

(** The body of [_request], as one equation. *)
Lemma _request_body self method endpoint data params retry_count w :
  request self method endpoint data params retry_count w =
  let '(t, w1) :=
    send session_request duration (request_of self method endpoint data params) w in
  match try_block t with
  | Raise (Foreign (RequestException e)) =>
      if Z_lt_dec retry_count (max_retries self) then
        match sleep (2 ^ retry_count) w1 with
        | (Return _, w2) =>
            request self method endpoint data params (retry_count + 1) w2
        | (Raise e', w2) => (Raise e', w2)
        end
      else (Raise (network_error e), w1)
  | r => (r, w1)
  end.
Proof.
  simp _request.
  destruct (send _ _ _ w) as [t w1]. simpl.
  destruct (try_block t) as [v|[m s d|[e|cls msg]]]; simpl; try reflexivity.
  destruct (Z_lt_dec retry_count (max_retries self)); simpl; try reflexivity.
  destruct (sleep (2 ^ retry_count) w1) as [[[]|e'] w2]; reflexivity.
Qed.

(** A run of [_request] from retry count [rc]: it retries [k] times, at
    most as often as the budget [max_retries - rc] allows; the trace
    grows by the attempts and backoff sleeps of [k] retries; the first
    [k] attempts failed transiently; the answer is settled by the last
    attempt; and a transient last attempt means the budget is used up. *)
Lemma request_run self method endpoint data params :
  forall (n : nat) (rc : Z) (w : World),
    Z.to_nat (max_retries self - rc) = n ->
    let req := request_of self method endpoint data params in
    let res := request self method endpoint data params rc w in
    exists k : nat,
      (k <= n)%nat /\
      trace (snd res) = trace w ++ backoff_events req rc k /\
      (forall i, (i < k)%nat ->
         transient (try_block (session_request (attempts (trace w) + i) req)) <> None) /\
      fst res = settle (try_block (session_request (attempts (trace w) + k) req)) /\
      (transient (try_block (session_request (attempts (trace w) + k) req)) <> None ->
       k = n).
Proof.
  induction n as [|n IH]; intros rc w Hn req res; subst res;
    rewrite _request_body; fold req; unfold send;
    set (t := session_request (attempts (trace w)) req);
    assert (Ht : session_request (attempts (trace w) + 0) req = t)
      by (rewrite Nat.add_0_r; reflexivity).
  - destruct (try_block t) as [v|[m s d|[e|cls msg]]] eqn:Hb;
      try (exists 0%nat; rewrite Ht, Hb; simpl; repeat split;
           solve [lia | reflexivity | intros; lia]).
    destruct (Z_lt_dec rc (max_retries self)) as [Hlt|Hge]; [lia|].
    exists 0%nat. rewrite Ht, Hb. simpl.
    repeat split; solve [lia | reflexivity | intros; lia].
  - destruct (try_block t) as [v|[m s d|[e|cls msg]]] eqn:Hb;
      try (exists 0%nat; rewrite Ht, Hb; simpl; repeat split;
           solve [lia | reflexivity | intros; lia | intros; congruence]).
    destruct (Z_lt_dec rc (max_retries self)) as [Hlt|Hge]; [|lia].
    rewrite sleep_nonneg by (apply Z.pow_nonneg; lia).
    cbn [now trace].
    match goal with
    | |- context [request _ _ _ _ _ _ ?w2] =>
        destruct (IH (rc + 1) w2 ltac:(lia)) as (k & Hk & Htr & Hpre & Hres & Hlast);
        set (w' := w2) in *
    end.
    assert (Hat : attempts (trace w') = S (attempts (trace w))).
    { unfold w'. cbn [trace]. rewrite !attempts_app. cbn. lia. }
    rewrite Hat in Hpre, Hres, Hlast.
    exists (S k). repeat split.
    + lia.
    + rewrite Htr. unfold w'. cbn [trace backoff_events].
      rewrite <- !app_assoc. reflexivity.
    + intros [|i] Hi.
      * rewrite Ht, Hb. discriminate.
      * rewrite Nat.add_succ_r. apply (Hpre i). lia.
    + rewrite Hres. rewrite Nat.add_succ_r. reflexivity.
    + intros H. rewrite Nat.add_succ_r in H. f_equal. apply Hlast, H.
Qed.

End Dispatcher.

(** *** Retry ceiling and backoff schedule *)

(** C1. With [max_retries = N] (a non-negative count), a call of
    [_request] never makes more than [N + 1] transport attempts; and when
    the transport raises a transient error on every attempt it makes
    exactly [N + 1] attempts and then fails with the network error, an
    [APIError] whose [status_code] is [None]. *)
Theorem retry_ceiling (session_request : nat -> Request -> Transport)
    (duration : nat -> Z) (self : OuroborosClient) (method endpoint : string)
    (data : option JSON) (params : option (gmap string ParamValue)) (w : World) :
  0 <= max_retries self ->
  let req := request_of self method endpoint data params in
  let res := _request session_request duration self method endpoint data params 0 w in
  let made := Z.of_nat (attempts (trace (snd res))) - Z.of_nat (attempts (trace w)) in
  1 <= made <= max_retries self + 1 /\
  ((forall n, exists e, session_request n req = Raises (RequestException e)) ->
   made = max_retries self + 1 /\
   exists e,
     fst res = Raise (APIError (JString ("Network error: " +:+ e)) None empty_dict)).
Proof.
  intros HN req res made.
  destruct (request_run session_request duration self method endpoint data params
              (Z.to_nat (max_retries self - 0)) 0 w eq_refl)
    as (k & Hk & Htr & _ & Hres & Hlast).
  fold req in Htr, Hres, Hlast. fold res in Htr, Hres.
  assert (Hmade : made = Z.of_nat k + 1).
  { unfold made. rewrite Htr, attempts_app, attempts_backoff. lia. }
  split; [lia|].
  intros Hdown.
  destruct (Hdown (attempts (trace w) + k)%nat) as [e He].
  rewrite He in Hres, Hlast. simpl in Hres, Hlast.
  split.
  - rewrite Hmade, (Hlast ltac:(discriminate)). lia.
  - exists e. exact Hres.
Qed.

(** C5. In every run of [_request] the [k]-th retry (counted from 0) is
    preceded by a sleep of exactly [2 ^ k]: the trace of the run is an
    attempt followed, for each retry, by that sleep and the next attempt.
    The sleeps of a run with [k] retries add up to [2 ^ k - 1], which is
    [1 + 2 + 4 = 7] for a run that uses up three retries. *)
Theorem backoff_schedule (session_request : nat -> Request -> Transport)
    (duration : nat -> Z) (self : OuroborosClient) (method endpoint : string)
    (data : option JSON) (params : option (gmap string ParamValue)) (w : World) :
  let req := request_of self method endpoint data params in
  let res := _request session_request duration self method endpoint data params 0 w in
  exists k : nat,
    trace (snd res) = trace w ++ backoff_events req 0 k /\
    sleeps (trace (snd res)) =
      sleeps (trace w) ++ map (fun i => 2 ^ Z.of_nat i) (seq 0 k) /\
    total (map (fun i => 2 ^ Z.of_nat i) (seq 0 k)) = 2 ^ Z.of_nat k - 1 /\
    backoff_events req 0 3 =
      [Sent req; Slept 1; Sent req; Slept 2; Sent req; Slept 4; Sent req] /\
    total (sleeps (backoff_events req 0 3)) = 7.
Proof.
  intros req res.
  destruct (request_run session_request duration self method endpoint data params
              (Z.to_nat (max_retries self - 0)) 0 w eq_refl)
    as (k & _ & Htr & _).
  fold req res in Htr.
  exists k. split; [exact Htr|].
  assert (Hs : sleeps (backoff_events req 0 k) = map (fun i => 2 ^ Z.of_nat i) (seq 0 k)).
  { rewrite sleeps_backoff. apply map_ext. intros i. f_equal. }
  split; [rewrite Htr, sleeps_app, Hs; reflexivity|].
  split; [rewrite <- Hs; apply total_sleeps_backoff|].
  split; reflexivity.
Qed.

(** *** Answers that are not retried *)

Section Answers.

Variable session_request : nat -> Request -> Transport.
Variable duration : nat -> Z.

#[local] Abbreviation request := (_request session_request duration).

(** An attempt whose [try] block does not end in a [RequestException]
    settles the call at once: one attempt, no sleep. *)
Lemma request_settled self method endpoint data params rc w :
  let req := request_of self method endpoint data params in
  let t := session_request (attempts (trace w)) req in
  transient (try_block t) = None ->
  request self method endpoint data params rc w =
    (try_block t,
     {| now := now w + duration (attempts (trace w));
        trace := trace w ++ [Sent req] |}).
Proof.
  intros req t Hnt. rewrite _request_body. fold req. unfold send. fold t.
  destruct (try_block t) as [v|[m s d|[e|cls msg]]]; simpl in *;
    try reflexivity; discriminate.
Qed.

(** [_request] never lets a [RequestException] through: it is retried
    or turned into the network error. *)
Lemma request_no_request_exception self method endpoint data params w :
  transient (fst (request self method endpoint data params 0 w)) = None.
Proof.
  destruct (request_run session_request duration self method endpoint data params
              (Z.to_nat (max_retries self - 0)) 0 w eq_refl)
    as (k & _ & _ & _ & Hres & _).
  rewrite Hres.
  destruct (try_block _) as [v|[m s d|[e|cls msg]]]; reflexivity.
Qed.

End Answers.

(** The HTTP error branch, for a body that is empty or parses: the
    raised [APIError] carries the extracted message, the status code and
    the parsed body (or [{}]) as details. *)
Lemma handle_http_error response :
  400 <= status_code response ->
  content response = "" \/ (exists v, json response = inr v) ->
  exists details,
    handle_response response =
      Raise (APIError (extract_error_message response)
               (Some (status_code response)) details).
Proof.
  intros Hcode Hbody. unfold handle_response.
  destruct (Z.geb_spec (status_code response) 400) as [_|Hlt]; [|lia].
  destruct (String.eqb_spec (content response) "") as [He|Hne]; simpl.
  - eexists. reflexivity.
  - destruct Hbody as [He|[v Hv]]; [contradiction|].
    rewrite Hv. eexists. reflexivity.
Qed.

(** The message block of [_request] computes the precedence of
    [error_message_spec]. *)
Lemma extract_error_message_spec response :
  extract_error_message response = error_message_spec response.
Proof.
  unfold extract_error_message, error_message_spec.
  destruct (json response) as [e|[| b | z | q | s | l | m]]; try reflexivity.
  - simpl. destruct (is_substring "error" s); [reflexivity|].
    destruct (is_substring "message" s); reflexivity.
  - simpl. destruct (existsb _ l); [reflexivity|].
    destruct (existsb _ l); reflexivity.
  - cbn [py_in]. destruct (m !! "error") as [err|] eqn:Herr.
    + rewrite bool_decide_eq_true_2 by eauto.
      cbn [py_getitem]. rewrite Herr.
      destruct err; reflexivity.
    + rewrite bool_decide_eq_false_2 by (intros [x Hx]; discriminate).
      destruct (m !! "message") as [msg|] eqn:Hmsg.
      * rewrite bool_decide_eq_true_2 by eauto.
        cbn [py_getitem]. rewrite Hmsg. reflexivity.
      * rewrite bool_decide_eq_false_2 by (intros [x Hx]; discriminate).
        reflexivity.
Qed.

(** An HTTP error response whose body is empty or parses as JSON is
    answered after exactly one attempt, with no sleep, by an [APIError]
    that carries its status code; this holds for 5xx codes as well. *)
Lemma http_error_single_attempt (session_request : nat -> Request -> Transport)
    (duration : nat -> Z) (self : OuroborosClient) (method endpoint : string)
    (data : option JSON) (params : option (gmap string ParamValue)) (w : World)
    (response : Response) :
  let req := request_of self method endpoint data params in
  session_request (attempts (trace w)) req = Responds response ->
  400 <= status_code response ->
  content response = "" \/ (exists v, json response = inr v) ->
  exists details,
    _request session_request duration self method endpoint data params 0 w =
      (Raise (APIError (extract_error_message response)
                (Some (status_code response)) details),
       {| now := now w + duration (attempts (trace w));
          trace := trace w ++ [Sent req] |}).
Proof.
  intros req Hresp Hcode Hbody.
  destruct (handle_http_error response Hcode Hbody) as [details Hd].
  exists details.
  rewrite request_settled; fold req; rewrite Hresp; simpl; rewrite Hd; reflexivity.
Qed.

(** The 404 with a JSON body: one attempt, no sleep, and an [APIError]
    with [status_code = 404]. *)
Lemma http_error_json_404 :
  _request (respond_always json_404) no_delay default_client
    "GET" "/graphs/demo" None None 0 world0 =
  (Raise (APIError (JString "no such graph") (Some 404)
            (JObject (<["message" := JString "no such graph"]> ∅))),
   {| now := 0;
      trace := [Sent (request_of default_client "GET" "/graphs/demo" None None)] |}).
Proof. vm_compute. reflexivity. Qed.

(** C2, on a 404 whose body is an HTML page.  Building the [details] of
    the [APIError] calls [response.json()] a second time, outside the
    inner [try]; the decoding error is a [RequestException], so the call
    is retried three times and ends as a network error without status
    code.  Under an older requests the [ValueError] escapes instead. *)
Theorem http_error_html_body_retried :
  let res :=
    _request (respond_always html_404) no_delay default_client
      "GET" "/graphs/demo" None None 0 world0 in
  let res' :=
    _request (respond_always html_404_legacy) no_delay default_client
      "GET" "/graphs/demo" None None 0 world0 in
  fst res = Raise (APIError (JString ("Network error: " +:+ expecting_value))
                     None empty_dict) /\
  attempts (trace (snd res)) = 4%nat /\
  sleeps (trace (snd res)) = [1; 2; 4] /\
  fst res' = Raise (Foreign (PyException "ValueError" expecting_value)) /\
  attempts (trace (snd res')) = 1%nat.
Proof. vm_compute. repeat split. Qed.

(** C3, on a 200 whose body is not JSON.  [return response.json()] is
    inside the outer [try]; the decoding error is a [RequestException],
    so the handler that is meant for network errors retries the request
    three times and reports the parse failure as a network error without
    status code.  Under an older requests the [ValueError] escapes after
    the single attempt, which is the hard failure the claim describes. *)
Theorem unparsable_success_retried :
  let res :=
    _request (respond_always garbled_200) no_delay default_client
      "GET" "/health" None None 0 world0 in
  let res' :=
    _request (respond_always garbled_200_legacy) no_delay default_client
      "GET" "/health" None None 0 world0 in
  fst res = Raise (APIError (JString ("Network error: " +:+ expecting_value))
                     None empty_dict) /\
  attempts (trace (snd res)) = 4%nat /\
  sleeps (trace (snd res)) = [1; 2; 4] /\
  fst res' = Raise (Foreign (PyException "ValueError" expecting_value)) /\
  attempts (trace (snd res')) = 1%nat /\
  sleeps (trace (snd res')) = [].
Proof. vm_compute. repeat split. Qed.

(** On that 200 the call is not a single attempt that ends in an error
    other than the network error. *)
Lemma unparsable_success_is_retried :
  let res :=
    _request (respond_always garbled_200) no_delay default_client
      "GET" "/health" None None 0 world0 in
  ~ (attempts (trace (snd res)) = 1%nat /\
     forall e, fst res <> Raise (network_error e)).
Proof.
  intros res [Hone _]. vm_compute in Hone. discriminate.
Qed.

(** A success result of [_request] is always the parsed
    body of a response that was received with a status below 400; when
    every response has such a status and a body that fails to parse, the
    call ends by raising and returns no value; and a decoding error that
    is not a [RequestException] leaves [_request] unchanged after that
    one attempt. *)
Theorem unparsable_success_fails (session_request : nat -> Request -> Transport)
    (duration : nat -> Z) (self : OuroborosClient) (method endpoint : string)
    (data : option JSON) (params : option (gmap string ParamValue)) (w : World) :
  let req := request_of self method endpoint data params in
  let res := _request session_request duration self method endpoint data params 0 w in
  (forall v, fst res = Return v ->
     exists n response,
       session_request n req = Responds response /\
       status_code response < 400 /\ json response = inr v) /\
  ((forall n, exists response err,
      session_request n req = Responds response /\
      status_code response < 400 /\ json response = inl err) ->
   exists e, fst res = Raise e) /\
  (forall response cls msg,
     session_request (attempts (trace w)) req = Responds response ->
     status_code response < 400 ->
     json response = inl (PyException cls msg) ->
     res = (Raise (Foreign (PyException cls msg)),
            {| now := now w + duration (attempts (trace w));
               trace := trace w ++ [Sent req] |})).
Proof.
  intros req res.
  destruct (request_run session_request duration self method endpoint data params
              (Z.to_nat (max_retries self - 0)) 0 w eq_refl)
    as (k & _ & _ & _ & Hres & _).
  fold req in Hres. fold res in Hres.
  set (n := (attempts (trace w) + k)%nat) in Hres.
  assert (Hsuccess : forall v, fst res = Return v ->
            exists response, session_request n req = Responds response /\
              status_code response < 400 /\ json response = inr v).
  { intros v Hv. rewrite Hres in Hv.
    destruct (session_request n req) as [e|response] eqn:Ht; simpl in Hv.
    - destruct e; discriminate.
    - exists response. unfold handle_response in Hv.
      destruct (Z.geb_spec (status_code response) 400) as [Hge|Hlt].
      + destruct (if negb _ then _ else _) as [[e|cls msg]|d]; discriminate.
      + destruct (json response) as [[e|cls msg]|v'] eqn:Hj; try discriminate.
        simpl in Hv. injection Hv as ->. repeat split; reflexivity || lia. }
  split; [|split].
  - intros v Hv. exists n. apply Hsuccess, Hv.
  - intros Hbad. destruct (fst res) as [v|e] eqn:Hfst; [|exists e; reflexivity].
    destruct (Hsuccess v eq_refl) as (response & Hr & _ & Hj).
    destruct (Hbad n) as (response' & err & Hr' & _ & Hj').
    congruence.
  - intros response cls msg Hresp Hcode Hj. unfold res.
    rewrite request_settled; fold req; rewrite Hresp; simpl; unfold handle_response;
      destruct (Z.geb_spec (status_code response) 400) as [Hge|Hlt]; try lia;
      rewrite Hj; reflexivity.
Qed.

(** C4 as stated fails on the body [{"error": {}, "message": "oops"}]:
    the [error] key is present, so [message] of the body is not
    consulted and the text is the generic one. *)
Lemma error_key_shadows_message :
  let res :=
    _request (respond_always error_without_message_400) no_delay default_client
      "POST" "/workflows/demo/execute" None None 0 world0 in
  extract_error_message error_without_message_400 <> JString "oops" /\
  ~ (exists status details, fst res = Raise (APIError (JString "oops") status details)).
Proof.
  split.
  - vm_compute. discriminate.
  - intros (status & details & H). vm_compute in H. discriminate.
Qed.

(** C4, amended.  The extracted message follows [error_message_spec]:
    with an [error] key in a JSON object body it is [error.message], or
    the generic text when that is missing; without an [error] key it is
    [message] of the body; otherwise it is the generic text.  The three
    bodies of the specification give ["bad field"], ["oops"] and the
    generic text, and the [APIError] raised for a body that is empty or
    parses carries this message. *)
Theorem error_message_precedence :
  (forall response, extract_error_message response = error_message_spec response) /\
  extract_error_message bad_field_400 = JString "bad field" /\
  extract_error_message oops_400 = JString "oops" /\
  extract_error_message empty_400 = JString "Request failed with status 400" /\
  extract_error_message garbled_400 = JString "Request failed with status 400" /\
  (forall session_request duration self method endpoint data params w response,
     session_request (attempts (trace w))
       (request_of self method endpoint data params) = Responds response ->
     400 <= status_code response ->
     content response = "" \/ (exists v, json response = inr v) ->
     exists details,
       fst (_request session_request duration self method endpoint data params 0 w) =
         Raise (APIError (error_message_spec response)
                  (Some (status_code response)) details)).
Proof.
  split; [exact extract_error_message_spec|].
  do 4 (split; [vm_compute; reflexivity|]).
  intros session_request duration self method endpoint data params w response
    Hresp Hcode Hbody.
  destruct (http_error_single_attempt session_request duration self method endpoint
              data params w response Hresp Hcode Hbody) as [details Hd].
  exists details. rewrite Hd, extract_error_message_spec. reflexivity.
Qed.


(** ** Endpoint wrappers *)

Lemma rstrip_slashes_only n : rstrip "/" (slashes n) = "".
Proof. induction n as [|n IH]; simpl; [reflexivity | rewrite IH; reflexivity]. Qed.

Lemma rstrip_trailing_slashes b n : rstrip "/" (b +:+ slashes n) = rstrip "/" b.
Proof.
  induction b as [|a b IH]; simpl.
  - apply rstrip_slashes_only.
  - rewrite IH. reflexivity.
Qed.

Lemma rstrip_no_trailing c b s : rstrip c b <> s +:+ String c "".
Proof.
  revert s. induction b as [|a b IH]; intros s; simpl.
  - destruct s; discriminate.
  - destruct (rstrip c b) as [|y r] eqn:Hr.
    + destruct (Ascii.eqb_spec a c) as [->|Hne].
      * destruct s; discriminate.
      * destruct s as [|x s']; simpl; intros H.
        -- injection H as H1. exact (Hne H1).
        -- injection H as _ H2. destruct s'; discriminate.
    + destruct s as [|x s']; simpl; intros H.
      * injection H as _ H. discriminate.
      * injection H as _ H. exact (IH s' H).
Qed.

(** C9. A base URL and the same base URL followed by any number of
    slashes give the same client, so the same request (in particular the
    same full URL) for every endpoint and the same run of [_request];
    the stored base URL never ends in a slash. *)
Theorem base_url_trailing_slashes (b : string) (n : nat) (timeout max_retries : Z) :
  init (b +:+ slashes n) timeout max_retries = init b timeout max_retries /\
  (forall method endpoint data params,
     req_url (request_of (init (b +:+ slashes n) timeout max_retries)
                method endpoint data params) =
     req_url (request_of (init b timeout max_retries) method endpoint data params)) /\
  (forall session_request duration method endpoint data params w,
     _request session_request duration (init (b +:+ slashes n) timeout max_retries)
       method endpoint data params 0 w =
     _request session_request duration (init b timeout max_retries)
       method endpoint data params 0 w) /\
  (forall s, api_base_url (init b timeout max_retries) <> s +:+ "/").
Proof.
  assert (H : init (b +:+ slashes n) timeout max_retries = init b timeout max_retries).
  { unfold init. rewrite rstrip_trailing_slashes. reflexivity. }
  repeat split; intros; try rewrite H; try reflexivity.
  apply rstrip_no_trailing.
Qed.

(** C8. For a non-empty list of tags, the [params] of [list_graphs] and
    of [list_workflows] map [tags] to the comma-joined list, [["a"; "b";
    "c"]] becoming ["a,b,c"], and every request that the two operations
    send carries these [params]. *)
Theorem tags_comma_joined (tags : list string) (category search : option string)
    (status : string) (limit offset : Z) :
  tags <> [] ->
  list_graphs_params category (Some tags) limit offset !! "tags" =
    Some (PStr (str_join "," tags)) /\
  list_workflows_params category (Some tags) search status limit offset !! "tags" =
    Some (PStr (str_join "," tags)) /\
  str_join "," ["a"; "b"; "c"] = "a,b,c" /\
  (forall session_request duration self w,
     exists k,
       trace (snd (list_graphs session_request duration self category (Some tags)
                     limit offset w)) =
       trace w ++
       backoff_events
         (request_of self "GET" "/graphs" None
            (Some (list_graphs_params category (Some tags) limit offset))) 0 k) /\
  (forall session_request duration self w,
     exists k,
       trace (snd (list_workflows session_request duration self category (Some tags)
                     search status limit offset w)) =
       trace w ++
       backoff_events
         (request_of self "GET" "/workflows" None
            (Some (list_workflows_params category (Some tags) search status
                     limit offset))) 0 k).
Proof.
  intros Hne.
  assert (Ht : truthy_list (Some tags) = true) by (destruct tags; [contradiction | reflexivity]).
  split; [|split; [|split; [|split]]].
  - unfold list_graphs_params. rewrite Ht. apply lookup_insert_eq.
  - unfold list_workflows_params. rewrite Ht.
    destruct (truthy_str search).
    + rewrite lookup_insert_ne by discriminate. apply lookup_insert_eq.
    + apply lookup_insert_eq.
  - reflexivity.
  - intros session_request duration self w. unfold list_graphs.
    destruct (request_run session_request duration self "GET" "/graphs" None
                (Some (list_graphs_params category (Some tags) limit offset))
                (Z.to_nat (max_retries self - 0)) 0 w eq_refl)
      as (k & _ & Htr & _).
    exists k. rewrite <- Htr.
    destruct (_request _ _ _ _ _ _ _ _ _) as [[v|e] w']; reflexivity.
  - intros session_request duration self w. unfold list_workflows.
    destruct (request_run session_request duration self "GET" "/workflows" None
                (Some (list_workflows_params category (Some tags) search status
                         limit offset))
                (Z.to_nat (max_retries self - 0)) 0 w eq_refl)
      as (k & _ & Htr & _).
    exists k. rewrite <- Htr.
    destruct (_request _ _ _ _ _ _ _ _ _) as [[v|e] w']; reflexivity.
Qed.

Lemma py_eq_str_true v s : py_eq_str v s = true <-> v = JString s.
Proof.
  destruct v; simpl; try (split; [discriminate | intros H; discriminate]).
  destruct (String.eqb_spec s0 s) as [->|Hne]; split; try reflexivity; try discriminate.
  intros H. injection H as H. contradiction.
Qed.

(** C10 as stated fails on a 200 whose body is the JSON list [[]]:
    [response.get] raises [AttributeError], which is not an [APIError]
    and is not caught, so no boolean is returned. *)
Lemma check_health_not_total :
  fst (check_health answers_list no_delay default_client world0) =
    AttributeError "object has no attribute 'get'" /\
  forall b, fst (check_health answers_list no_delay default_client world0) <> Return b.
Proof.
  split; [vm_compute; reflexivity|].
  intros b H. vm_compute in H. discriminate.
Qed.

(** C10, amended.  [check_health] never raises an [APIError].  When the
    [/health] request returns a JSON object it answers whether the
    [status] entry is the string ["healthy"]; when the request fails with
    an [APIError] it answers [False]; and it answers [True] only in the
    first case. *)
Theorem check_health_outcomes (session_request : nat -> Request -> Transport)
    (duration : nat -> Z) (self : OuroborosClient) (w : World) :
  let res := _request session_request duration self "GET" "/health" None None 0 w in
  let health := check_health session_request duration self w in
  snd health = snd res /\
  (forall message status details, fst health <> Raise (APIError message status details)) /\
  (forall body, fst res = Return (JObject body) ->
     (body !! "status" = Some (JString "healthy") -> fst health = Return true) /\
     (body !! "status" <> Some (JString "healthy") -> fst health = Return false)) /\
  (forall message status details,
     fst res = Raise (APIError message status details) -> fst health = Return false) /\
  (fst health = Return true ->
   exists body, fst res = Return (JObject body) /\
                body !! "status" = Some (JString "healthy")).
Proof.
  intros res health. unfold health, check_health. fold res.
  destruct res as [[response|[m s d|e]] w']; cbn [fst snd].
  - destruct response as [| b | z | q | str | l | m]; cbn;
      try (split; [reflexivity|]; split; [discriminate|]; split;
           [intros body Hb; discriminate|]; split; discriminate).
    split; [reflexivity|]. split; [discriminate|].
    split; [|split; [discriminate|]].
    + intros body Hb. injection Hb as <-. split; intros Hs.
      * rewrite Hs. reflexivity.
      * destruct (py_eq_str (default JNull (m !! "status")) "healthy") eqn:He;
          [|reflexivity].
        apply py_eq_str_true in He.
        destruct (m !! "status") as [x|]; simpl in He;
          [subst x; contradiction | discriminate].
    + intros H. exists m. split; [reflexivity|].
      injection H as H. apply py_eq_str_true in H.
      destruct (m !! "status") as [x|]; simpl in H;
        [subst x; reflexivity | discriminate].
  - repeat split; try discriminate; intros; reflexivity.
  - repeat split; try discriminate; intros; discriminate.
Qed.

(** ** The poller [wait_for_execution] *)

(** An [APIError] raised by [_request] either carries a status code or is
    the network error. *)
Lemma request_api_error_shape (session_request : nat -> Request -> Transport)
    (duration : nat -> Z) self method endpoint data params w message status details :
  fst (_request session_request duration self method endpoint data params 0 w) =
    Raise (APIError message status details) ->
  (exists code, status = Some code) \/
  (exists e, message = JString ("Network error: " +:+ e)).
Proof.
  destruct (request_run session_request duration self method endpoint data params
              (Z.to_nat (max_retries self - 0)) 0 w eq_refl)
    as (k & _ & _ & _ & Hres & _).
  rewrite Hres. clear Hres.
  destruct (session_request _ _) as [[e|cls msg]|response]; simpl.
  - intros H. injection H as <- <- <-. right. eexists. reflexivity.
  - discriminate.
  - unfold handle_response.
    destruct (status_code response >=? 400).
    + destruct (if negb _ then _ else _) as [[e|cls msg]|d]; simpl.
      * intros H. injection H as <- <- <-. right. eexists. reflexivity.
      * discriminate.
      * intros H. injection H as <- <- <-. left. eexists. reflexivity.
    + destruct (json response) as [[e|cls msg]|v]; simpl.
      * intros H. injection H as <- <- <-. right. eexists. reflexivity.
      * discriminate.
      * discriminate.
Qed.

Section Poller.

Variable session_request : nat -> Request -> Transport.
Variable duration : nat -> Z.
Variable py_repr : JSON -> string.

#[local] Abbreviation loop := (wait_loop session_request duration py_repr).
#[local] Abbreviation status_of := (get_execution_status session_request duration).
#[local] Abbreviation info_of := (get_execution_info session_request duration).

(** One iteration whose deadline check passes and whose status fetch
    returns a JSON object: what the loop does with each status. *)
Lemma wait_loop_fetched fuel self execution_id poll_interval max_wait start_time
    w status w1 :
  now w - start_time <= max_wait ->
  status_of self execution_id w = (Return (JObject status), w1) ->
  loop (S fuel) self execution_id poll_interval max_wait start_time w =
    let execution_status := default JNull (status !! "status") in
    if py_eq_str execution_status "completed" then Some (info_of self execution_id w1)
    else if py_eq_str execution_status "failed" then
      Some (Raise (failed_error py_repr (default (JString "Unknown error") (status !! "error"))), w1)
    else if py_eq_str execution_status "cancelled" then Some (Raise cancelled_error, w1)
    else
      match sleep poll_interval w1 with
      | (Raise e, w2) => Some (Raise e, w2)
      | (Return _, w2) =>
          loop fuel self execution_id poll_interval max_wait start_time w2
      end.
Proof.
  intros Hdeadline Hfetch. cbn [wait_loop].
  rewrite Z.gtb_ltb. destruct (Z.ltb_spec max_wait (now w - start_time)); [lia|].
  rewrite Hfetch. reflexivity.
Qed.

(** An iteration that finds the deadline exceeded raises the timeout
    error without fetching anything. *)
Lemma wait_loop_deadline fuel self execution_id poll_interval max_wait start_time w :
  now w - start_time > max_wait ->
  loop (S fuel) self execution_id poll_interval max_wait start_time w =
    Some (Raise (timeout_error max_wait), w).
Proof.
  intros Hdeadline. cbn [wait_loop].
  rewrite Z.gtb_ltb. destruct (Z.ltb_spec max_wait (now w - start_time)); [|lia].
  reflexivity.
Qed.

End Poller.

(** C7. When the deadline check passes and the status fetch reports a
    terminal state, the loop ends in that iteration: on [completed] with
    the outcome of one call of [get_execution_info], all of whose
    requests go to the info endpoint; on [failed] with the error that
    carries the [error] entry of the status document (or
    ["Unknown error"]); on [cancelled] with the cancellation error.  None
    of these outcomes is the timeout error, and the failure and
    cancellation errors differ from each other. *)
Theorem terminal_outcomes (session_request : nat -> Request -> Transport)
    (duration : nat -> Z) (py_repr : JSON -> string) (fuel : nat)
    (self : OuroborosClient) (execution_id : string)
    (poll_interval max_wait start_time : Z) (w : World)
    (status : gmap string JSON) (w1 : World) :
  now w - start_time <= max_wait ->
  get_execution_status session_request duration self execution_id w =
    (Return (JObject status), w1) ->
  let outcome :=
    wait_loop session_request duration py_repr (S fuel) self execution_id
      poll_interval max_wait start_time w in
  let info := get_execution_info session_request duration self execution_id w1 in
  let reason := default (JString "Unknown error") (status !! "error") in
  (status !! "status" = Some (JString "completed") ->
     outcome = Some info /\
     (exists k,
        trace (snd info) =
        trace w1 ++
        backoff_events
          (request_of self "GET" ("/executions/" +:+ execution_id +:+ "/info") None None)
          0 k) /\
     fst info <> Raise (timeout_error max_wait)) /\
  (status !! "status" = Some (JString "failed") ->
     outcome =
       Some (Raise (APIError (JString ("Execution failed: " +:+ py_str py_repr reason))
                      None empty_dict), w1)) /\
  (status !! "status" = Some (JString "cancelled") ->
     outcome =
       Some (Raise (APIError (JString "Execution was cancelled") None empty_dict), w1)) /\
  failed_error py_repr reason <> timeout_error max_wait /\
  cancelled_error <> timeout_error max_wait /\
  failed_error py_repr reason <> cancelled_error.
Proof.
  intros Hdeadline Hfetch outcome info reason. unfold outcome.
  rewrite (wait_loop_fetched session_request duration py_repr fuel self execution_id
             poll_interval max_wait start_time w status w1 Hdeadline Hfetch).
  split; [|split; [|split; [|split; [|split]]]].
  - intros Hs. rewrite Hs. split; [reflexivity|]. split.
    + destruct (request_run session_request duration self "GET"
                  ("/executions/" +:+ execution_id +:+ "/info") None None
                  (Z.to_nat (max_retries self - 0)) 0 w1 eq_refl)
        as (k & _ & Htr & _).
      exists k. exact Htr.
    + intros H. unfold info, get_execution_info in H.
      apply request_api_error_shape in H. destruct H as [[code H]|[e H]]; discriminate.
  - intros Hs. rewrite Hs. reflexivity.
  - intros Hs. rewrite Hs. reflexivity.
  - intros H. discriminate.
  - intros H. discriminate.
  - intros H. discriminate.
Qed.

(** C6 as stated fails when the deadline passes during a fetch: with
    [max_wait = 10] and a status fetch that takes 100 and reports
    [completed], the elapsed time exceeds [max_wait] before the terminal
    state is observed, yet the wait does not raise the timeout error; it
    makes the info call and returns its payload at elapsed time 200. *)
Lemma deadline_passed_during_fetch :
  let status_request := request_of default_client "GET" "/executions/abc" None None in
  let info_request := request_of default_client "GET" "/executions/abc/info" None None in
  let fetch := get_execution_status finished slow default_client "abc" world0 in
  let run := wait_for_execution finished slow no_repr 1 default_client "abc" 5 10 world0 in
  fst fetch = Return (status_doc "completed") /\
  now (snd fetch) - now world0 > 10 /\
  run = Some (Return execution_details,
              {| now := 200; trace := [Sent status_request; Sent info_request] |}) /\
  forall w', run <> Some (Raise (timeout_error 10), w').
Proof.
  split; [vm_compute; reflexivity|].
  split; [vm_compute; reflexivity|].
  split; [vm_compute; reflexivity|].
  intros w' H. vm_compute in H. discriminate.
Qed.

(** C6, amended.  The deadline is tested once per iteration, before the
    status fetch, and the status that the fetch reports is acted on
    whatever time the fetch took.  After [n] status fetches that each
    found the deadline not exceeded at that test and a status that is
    not terminal (any value other than [completed], [failed],
    [cancelled]; [queued] is one), the loop has slept [poll_interval]
    after each fetch and goes on from the world reached.  There it stops
    in the next iteration, without fetching, with the timeout error when
    the elapsed time exceeds [max_wait] at the test; otherwise it
    fetches, stops in that iteration when the fetch reports a terminal
    status, and with one more status that is not terminal it sleeps
    [poll_interval] and polls again. *)
Theorem polling_stops_exactly (session_request : nat -> Request -> Transport)
    (duration : nat -> Z) (py_repr : JSON -> string) (self : OuroborosClient)
    (execution_id : string) (poll_interval max_wait start_time : Z)
    (n : nat) (w w' : World) :
  0 <= poll_interval ->
  polled session_request duration self execution_id poll_interval max_wait
    start_time n w w' ->
  let loop := fun fuel w =>
    wait_loop session_request duration py_repr fuel self execution_id
      poll_interval max_wait start_time w in
  (forall fuel, loop (n + fuel)%nat w = loop fuel w') /\
  (now w' - start_time > max_wait ->
   forall fuel, loop (n + S fuel)%nat w = Some (Raise (timeout_error max_wait), w')) /\
  (forall status w1,
     now w' - start_time <= max_wait ->
     get_execution_status session_request duration self execution_id w' =
       (Return (JObject status), w1) ->
     (terminal (default JNull (status !! "status")) = true ->
      forall fuel, exists r,
        loop (n + S fuel)%nat w = Some r /\
        (r = get_execution_info session_request duration self execution_id w1 \/
         snd r = w1)) /\
     (terminal (default JNull (status !! "status")) = false ->
      forall fuel,
        loop (n + S fuel)%nat w = loop fuel (after_sleep poll_interval w1))) /\
  terminal (JString "queued") = false.
Proof.
  intros Hpoll Hpolled loop.
  assert (Hstep : forall fuel w0 status w1,
            now w0 - start_time <= max_wait ->
            get_execution_status session_request duration self execution_id w0 =
              (Return (JObject status), w1) ->
            terminal (default JNull (status !! "status")) = false ->
            loop (S fuel) w0 = loop fuel (after_sleep poll_interval w1)).
  { intros fuel w0 status w1 Hd Hf Ht. unfold loop.
    rewrite (wait_loop_fetched session_request duration py_repr fuel self execution_id
               poll_interval max_wait start_time w0 status w1 Hd Hf).
    unfold terminal in Ht. cbn zeta.
    destruct (py_eq_str _ "completed"); [discriminate|].
    destruct (py_eq_str _ "failed"); [discriminate|].
    destruct (py_eq_str _ "cancelled"); [discriminate|].
    rewrite sleep_nonneg by exact Hpoll. reflexivity. }
  assert (Hrun : forall fuel, loop (n + fuel)%nat w = loop fuel w').
  { induction Hpolled as [w0 | m w0 status w1 w2 Hd Hf Ht _ IH]; intros fuel.
    - reflexivity.
    - change (S m + fuel)%nat with (S (m + fuel)).
      rewrite (Hstep _ _ _ _ Hd Hf Ht). apply IH. }
  split; [exact Hrun|]. split; [|split; [|reflexivity]].
  - intros Hd fuel. rewrite Hrun. unfold loop. apply wait_loop_deadline. lia.
  - intros status w1 Hd Hf. split.
    + intros Ht fuel. rewrite Hrun. unfold loop.
      rewrite (wait_loop_fetched session_request duration py_repr fuel self execution_id
                 poll_interval max_wait start_time w' status w1 Hd Hf).
      unfold terminal in Ht. cbn zeta.
      destruct (py_eq_str _ "completed"); [eexists; split; [reflexivity | left; reflexivity]|].
      destruct (py_eq_str _ "failed"); [eexists; split; [reflexivity | right; reflexivity]|].
      destruct (py_eq_str _ "cancelled"); [eexists; split; [reflexivity | right; reflexivity]|].
      discriminate.
    + intros Ht fuel. rewrite Hrun. apply (Hstep _ _ _ _ Hd Hf Ht).
Qed.

(** ** Instances on the sample environments *)

(** The retry ceiling on a transport that refuses every connection, with
    the default [max_retries = 3]. *)
Lemma retry_ceiling_refused :
  0 <= max_retries default_client /\
  (forall n, exists e,
     refused n (request_of default_client "GET" "/health" None None) =
       Raises (RequestException e)) /\
  let res := _request refused no_delay default_client "GET" "/health" None None 0 world0 in
  Z.of_nat (attempts (trace (snd res))) - Z.of_nat (attempts (trace world0)) =
    max_retries default_client + 1 /\
  exists e, fst res = Raise (APIError (JString ("Network error: " +:+ e)) None empty_dict).
Proof.
  assert (H0 : 0 <= max_retries default_client) by (vm_compute; discriminate).
  assert (Hdown : forall n, exists e,
            refused n (request_of default_client "GET" "/health" None None) =
              Raises (RequestException e))
    by (intros n; eexists; reflexivity).
  split; [exact H0|]. split; [exact Hdown|].
  exact (proj2 (retry_ceiling refused no_delay default_client "GET" "/health"
                  None None world0 H0) Hdown).
Defined.

(** The tags [["a"; "b"; "c"]] of the specification. *)
Lemma tags_comma_joined_abc :
  ["a"; "b"; "c"] <> [] /\
  list_graphs_params None (Some ["a"; "b"; "c"]) 100 0 !! "tags" = Some (PStr "a,b,c") /\
  list_workflows_params None (Some ["a"; "b"; "c"]) None "active" 50 0 !! "tags" =
    Some (PStr "a,b,c").
Proof.
  assert (Hne : ["a"; "b"; "c"] <> []) by discriminate.
  split; [exact Hne|].
  split.
  - exact (proj1 (tags_comma_joined ["a"; "b"; "c"] None None "active" 100 0 Hne)).
  - exact (proj1 (proj2 (tags_comma_joined ["a"; "b"; "c"] None None "active" 50 0 Hne))).
Defined.

(** A 200 that is never JSON ends in an exception. *)
Lemma unparsable_success_fails_garbled :
  (forall n, exists response err,
     respond_always garbled_200 n (request_of default_client "GET" "/health" None None) =
       Responds response /\
     status_code response < 400 /\ json response = inl err) /\
  exists e,
    fst (_request (respond_always garbled_200) no_delay default_client
           "GET" "/health" None None 0 world0) = Raise e.
Proof.
  assert (Hbad : forall n, exists response err,
            respond_always garbled_200 n
              (request_of default_client "GET" "/health" None None) =
              Responds response /\
            status_code response < 400 /\ json response = inl err).
  { intros n. exists garbled_200, (RequestException expecting_value).
    repeat split. }
  split; [exact Hbad|].
  exact (proj1 (proj2 (unparsable_success_fails (respond_always garbled_200) no_delay
                         default_client "GET" "/health" None None world0)) Hbad).
Defined.

(** The 400 with the body [{"error": {"message": "bad field"}}]. *)
Lemma error_message_precedence_bad_field :
  400 <= status_code bad_field_400 /\
  exists details,
    fst (_request (respond_always bad_field_400) no_delay default_client
           "POST" "/workflows/demo/execute" None None 0 world0) =
      Raise (APIError (error_message_spec bad_field_400)
               (Some (status_code bad_field_400)) details).
Proof.
  assert (Hcode : 400 <= status_code bad_field_400) by (vm_compute; discriminate).
  split; [exact Hcode|].
  refine (proj2 (proj2 (proj2 (proj2 (proj2 error_message_precedence))))
            (respond_always bad_field_400) no_delay default_client
            "POST" "/workflows/demo/execute" None None world0 bad_field_400
            eq_refl Hcode _).
  right. eexists. reflexivity.
Defined.

(** A healthy service. *)
Lemma check_health_healthy :
  fst (_request (respond_always (ok_200 (status_doc "healthy"))) no_delay default_client
         "GET" "/health" None None 0 world0) = Return (status_doc "healthy") /\
  fst (check_health (respond_always (ok_200 (status_doc "healthy"))) no_delay
         default_client world0) = Return true.
Proof.
  assert (Hres : fst (_request (respond_always (ok_200 (status_doc "healthy"))) no_delay
                        default_client "GET" "/health" None None 0 world0) =
                 Return (status_doc "healthy")) by (vm_compute; reflexivity).
  split; [exact Hres|].
  refine (proj1 (proj1 (proj2 (proj2 (check_health_outcomes
            (respond_always (ok_200 (status_doc "healthy"))) no_delay
            default_client world0))) _ Hres) _).
  vm_compute. reflexivity.
Defined.

(** An execution that is already completed: the first iteration ends the
    wait with the outcome of the info call. *)
Lemma terminal_outcomes_finished :
  let status_request := request_of default_client "GET" "/executions/abc" None None in
  let w1 := {| now := 0; trace := [Sent status_request] |} in
  now world0 - 0 <= 3600 /\
  get_execution_status finished no_delay default_client "abc" world0 =
    (Return (status_doc "completed"), w1) /\
  wait_loop finished no_delay no_repr 1 default_client "abc" 5 3600 0 world0 =
    Some (get_execution_info finished no_delay default_client "abc" w1) /\
  fst (get_execution_info finished no_delay default_client "abc" w1) <>
    Raise (timeout_error 3600).
Proof.
  intros status_request w1.
  assert (Hdeadline : now world0 - 0 <= 3600) by (vm_compute; discriminate).
  assert (Hfetch : get_execution_status finished no_delay default_client "abc" world0 =
                   (Return (status_doc "completed"), w1)) by (vm_compute; reflexivity).
  assert (Hstatus : (<["status" := JString "completed"]> ∅ : gmap string JSON) !! "status" =
                    Some (JString "completed")) by (vm_compute; reflexivity).
  split; [exact Hdeadline|]. split; [exact Hfetch|].
  pose proof (proj1 (terminal_outcomes finished no_delay no_repr 0 default_client "abc"
                       5 3600 0 world0 (<["status" := JString "completed"]> ∅) w1
                       Hdeadline Hfetch) Hstatus) as [Hout [_ Hnot]].
  split; [exact Hout | exact Hnot].
Defined.

(** The statuses [running], [queued], [completed]: two polls with a sleep
    of [poll_interval] after each, then the loop goes on from the world
    reached. *)
Lemma polling_three_polls :
  let status_request := request_of default_client "GET" "/executions/abc" None None in
  let w2 :=
    {| now := 10;
       trace := [Sent status_request; Slept 5; Sent status_request; Slept 5] |} in
  0 <= 5 /\
  polled three_polls no_delay default_client "abc" 5 3600 0 2 world0 w2 /\
  forall fuel,
    wait_loop three_polls no_delay no_repr (2 + fuel) default_client "abc" 5 3600 0 world0 =
    wait_loop three_polls no_delay no_repr fuel default_client "abc" 5 3600 0 w2.
Proof.
  intros status_request w2.
  assert (Hpoll : 0 <= 5) by discriminate.
  assert (Hpolled : polled three_polls no_delay default_client "abc" 5 3600 0 2 world0 w2).
  { apply (polled_S three_polls no_delay default_client "abc" 5 3600 0 1 world0
             (<["status" := JString "running"]> ∅)
             {| now := 0; trace := [Sent status_request] |} w2);
      [vm_compute; discriminate | vm_compute; reflexivity | vm_compute; reflexivity |].
    apply (polled_S three_polls no_delay default_client "abc" 5 3600 0 0 _
             (<["status" := JString "queued"]> ∅)
             {| now := 5; trace := [Sent status_request; Slept 5; Sent status_request] |} w2);
      [vm_compute; discriminate | vm_compute; reflexivity | vm_compute; reflexivity |].
    apply polled_O. }
  split; [exact Hpoll|]. split; [exact Hpolled|].
  exact (proj1 (polling_stops_exactly three_polls no_delay no_repr default_client "abc"
                  5 3600 0 2 world0 w2 Hpoll Hpolled)).
Defined.

(** The run of the specification: [running], [queued], [completed] with
    the default intervals returns the execution details after three
    status fetches, two sleeps and one info call. *)
Lemma wait_for_execution_three_polls :
  let status_request := request_of default_client "GET" "/executions/abc" None None in
  let info_request := request_of default_client "GET" "/executions/abc/info" None None in
  wait_for_execution three_polls no_delay no_repr 3 default_client "abc" 5 3600 world0 =
    Some (Return execution_details,
          {| now := 10;
             trace := [Sent status_request; Slept 5; Sent status_request; Slept 5;
                       Sent status_request; Sent info_request] |}).
Proof. vm_compute. reflexivity. Qed.

(** ** Further properties of the dispatcher *)

Lemma time_of_backoff duration req :
  forall k rc n,
    time_of duration n (backoff_events req rc k) =
    total (map duration (seq n (S k))) + total (sleeps (backoff_events req rc k)).
Proof.
  induction k as [|k IH]; intros rc n.
  - cbn. lia.
  - cbn [backoff_events time_of sleeps]. rewrite IH.
    change (seq n (S (S k))) with (n :: seq (S n) (S k)).
    cbn [map total fold_right]. fold (total (map duration (seq (S n) (S k)))).
    fold (total (sleeps (backoff_events req (rc + 1) k))). lia.
Qed.

Lemma total_map_le (duration : nat -> Z) (D : Z) (l : list nat) :
  (forall n, duration n <= D) ->
  total (map duration l) <= Z.of_nat (length l) * D.
Proof.
  intros HD. induction l as [|x l IH]; [cbn; lia|].
  cbn [map total fold_right length]. fold (total (map duration l)).
  specialize (HD x). lia.
Qed.

Lemma total_map_nonneg (duration : nat -> Z) (l : list nat) :
  (forall n, 0 <= duration n) -> 0 <= total (map duration l).
Proof.
  intros HD. induction l as [|x l IH]; [cbn; lia|].
  cbn [map total fold_right]. fold (total (map duration l)).
  specialize (HD x). lia.
Qed.

Section Recovery.

Variable session_request : nat -> Request -> Transport.
Variable duration : nat -> Z.

#[local] Abbreviation request := (_request session_request duration).

(** A run whose first [k] attempts fail transiently, with [k] within the
    retry budget, and whose next attempt does not: the answer is that of
    attempt [k], after the attempts and sleeps of [k] retries. *)
Lemma request_after_failures self method endpoint data params :
  forall (k : nat) (rc : Z) (w : World),
    let req := request_of self method endpoint data params in
    let n0 := attempts (trace w) in
    rc + Z.of_nat k <= max_retries self ->
    (forall i, (i < k)%nat ->
       transient (try_block (session_request (n0 + i) req)) <> None) ->
    transient (try_block (session_request (n0 + k) req)) = None ->
    request self method endpoint data params rc w =
      (try_block (session_request (n0 + k) req),
       {| now := now w + time_of duration n0 (backoff_events req rc k);
          trace := trace w ++ backoff_events req rc k |}).
Proof.
  induction k as [|k IH]; intros rc w req n0 Hbudget Hfail Hlast.
  - rewrite request_settled; fold req; fold n0;
      rewrite Nat.add_0_r in Hlast; [|exact Hlast].
    rewrite Nat.add_0_r. cbn [backoff_events time_of]. rewrite Z.add_0_r. reflexivity.
  - rewrite _request_body. fold req. unfold send. fold n0.
    pose proof (Hfail 0%nat ltac:(lia)) as H0. rewrite Nat.add_0_r in H0.
    destruct (try_block (session_request n0 req)) as [v|[m s d|[e|cls msg]]];
      try (exfalso; apply H0; reflexivity).
    destruct (Z_lt_dec rc (max_retries self)) as [Hlt|Hge]; [|lia].
    rewrite sleep_nonneg by (apply Z.pow_nonneg; lia).
    cbn [now trace].
    match goal with
    | |- request _ _ _ _ _ _ ?w2 = _ => set (w' := w2)
    end.
    assert (Hat : attempts (trace w') = S n0).
    { unfold w'. cbn [trace]. rewrite !attempts_app. cbn. fold n0. lia. }
    rewrite (IH (rc + 1) w'); fold req; rewrite ?Hat.
    + rewrite <- Nat.add_succ_comm. f_equal.
      unfold w'. cbn [now trace backoff_events time_of].
      rewrite <- !app_assoc. cbn [app]. f_equal. lia.
    + lia.
    + intros i Hi. rewrite Nat.add_succ_comm. apply Hfail. lia.
    + rewrite Nat.add_succ_comm. exact Hlast.
Qed.

(** The clock of a run: it advances by the time of the events that the
    run adds to the trace. *)
Lemma request_clock self method endpoint data params :
  forall (n : nat) (rc : Z) (w : World),
    Z.to_nat (max_retries self - rc) = n ->
    let req := request_of self method endpoint data params in
    let res := request self method endpoint data params rc w in
    exists k : nat,
      (k <= n)%nat /\
      trace (snd res) = trace w ++ backoff_events req rc k /\
      now (snd res) =
        now w + time_of duration (attempts (trace w)) (backoff_events req rc k).
Proof.
  induction n as [|n IH]; intros rc w Hn req res; subst res;
    rewrite _request_body; fold req; unfold send;
    set (n0 := attempts (trace w));
    destruct (try_block (session_request n0 req)) as [v|[m s d|[e|cls msg]]];
    try (exists 0%nat; cbn; split; [lia | split; [reflexivity | lia]]).
  - destruct (Z_lt_dec rc (max_retries self)) as [Hlt|Hge]; [lia|].
    exists 0%nat; cbn; split; [lia | split; [reflexivity | lia]].
  - destruct (Z_lt_dec rc (max_retries self)) as [Hlt|Hge]; [|lia].
    rewrite sleep_nonneg by (apply Z.pow_nonneg; lia).
    cbn [now trace].
    match goal with
    | |- context [request _ _ _ _ _ _ ?w2] =>
        destruct (IH (rc + 1) w2 ltac:(lia)) as (k & Hk & Htr & Hnow);
        set (w' := w2) in *
    end.
    assert (Hat : attempts (trace w') = S n0).
    { unfold w'. cbn [trace]. rewrite !attempts_app. cbn. fold n0. lia. }
    rewrite Hat in Hnow.
    exists (S k). split; [lia|]. split.
    + rewrite Htr. unfold w'. cbn [trace backoff_events].
      rewrite <- !app_assoc. reflexivity.
    + rewrite Hnow. unfold w'. cbn [now backoff_events time_of]. fold req. lia.
Qed.

End Recovery.

(** X1. A [RequestException] never leaves [_request], whatever the retry
    count it is entered with: the outcome is never such an exception
    ([transient] finds none), because it is retried or becomes the
    network error.  A caller that handles [APIError] handles every
    transport failure of [requests]. *)
Theorem request_exception_never_escapes
    (session_request : nat -> Request -> Transport) (duration : nat -> Z)
    (self : OuroborosClient) (method endpoint : string) (data : option JSON)
    (params : option (gmap string ParamValue)) (retry_count : Z) (w : World) :
  transient
    (fst (_request session_request duration self method endpoint data params
            retry_count w)) = None.
Proof.
  destruct (request_run session_request duration self method endpoint data params
              (Z.to_nat (max_retries self - retry_count)) retry_count w eq_refl)
    as (k & _ & _ & _ & Hres & _).
  rewrite Hres.
  destruct (try_block _) as [v|[m s d|[e|cls m]]]; reflexivity.
Qed.

(** X2. A response with a status below 400 and a body that parses, received
    at the first attempt, is returned as parsed after that one attempt:
    no sleep, and the clock advances by the duration of the call. *)
Theorem success_first_attempt
    (session_request : nat -> Request -> Transport) (duration : nat -> Z)
    (self : OuroborosClient) (method endpoint : string) (data : option JSON)
    (params : option (gmap string ParamValue)) (retry_count : Z) (w : World)
    (response : Response) (v : JSON) :
  let req := request_of self method endpoint data params in
  session_request (attempts (trace w)) req = Responds response ->
  status_code response < 400 ->
  json response = inr v ->
  _request session_request duration self method endpoint data params retry_count w =
    (Return v,
     {| now := now w + duration (attempts (trace w));
        trace := trace w ++ [Sent req] |}).
Proof.
  intros req Hresp Hcode Hjson.
  assert (Hb : try_block (session_request (attempts (trace w)) req) = Return v).
  { rewrite Hresp. simpl. unfold handle_response.
    destruct (Z.geb_spec (status_code response) 400); [lia|].
    rewrite Hjson. reflexivity. }
  rewrite request_settled; fold req; rewrite Hb; reflexivity.
Qed.

(** X3. When the first [k] attempts fail transiently, with [k] at most
    [max_retries], and the next attempt is answered with a status below
    400 and a body that parses, the call returns that body: [k + 1]
    attempts, the sleeps [1, 2, ..., 2 ^ (k - 1)] between them, and a
    clock advanced by the durations of the calls plus [2 ^ k - 1]. *)
Theorem recovers_after_transient_failures
    (session_request : nat -> Request -> Transport) (duration : nat -> Z)
    (self : OuroborosClient) (method endpoint : string) (data : option JSON)
    (params : option (gmap string ParamValue)) (w : World)
    (k : nat) (response : Response) (v : JSON) :
  let req := request_of self method endpoint data params in
  let n0 := attempts (trace w) in
  Z.of_nat k <= max_retries self ->
  (forall i, (i < k)%nat ->
     exists e, session_request (n0 + i)%nat req = Raises (RequestException e)) ->
  session_request (n0 + k)%nat req = Responds response ->
  status_code response < 400 ->
  json response = inr v ->
  let res := _request session_request duration self method endpoint data params 0 w in
  fst res = Return v /\
  trace (snd res) = trace w ++ backoff_events req 0 k /\
  attempts (trace (snd res)) = (n0 + k + 1)%nat /\
  sleeps (trace (snd res)) = sleeps (trace w) ++ map (fun i => 2 ^ Z.of_nat i) (seq 0 k) /\
  now (snd res) = now w + total (map duration (seq n0 (S k))) + (2 ^ Z.of_nat k - 1).
Proof.
  intros req n0 Hk Hfail Hresp Hcode Hjson res.
  assert (Hb : try_block (session_request (n0 + k)%nat req) = Return v).
  { rewrite Hresp. simpl. unfold handle_response.
    destruct (Z.geb_spec (status_code response) 400); [lia|].
    rewrite Hjson. reflexivity. }
  assert (Hrun := request_after_failures session_request duration self method endpoint
                    data params k 0 w).
  cbv zeta in Hrun. fold req n0 in Hrun. fold res in Hrun.
  rewrite Hrun.
  - rewrite Hb. cbn [fst snd trace now].
    split; [reflexivity|]. split; [reflexivity|]. split; [|split].
    + rewrite attempts_app, attempts_backoff. fold n0. lia.
    + rewrite sleeps_app, sleeps_backoff. f_equal.
    + rewrite time_of_backoff, total_sleeps_backoff. lia.
  - lia.
  - intros i Hi. destruct (Hfail i Hi) as [e He]. rewrite He. discriminate.
  - rewrite Hb. reflexivity.
Qed.

(** X4. An exception of the transport call that is not a [RequestException]
    is not retried: it leaves [_request] unchanged after one attempt. *)
Theorem foreign_exception_not_retried
    (session_request : nat -> Request -> Transport) (duration : nat -> Z)
    (self : OuroborosClient) (method endpoint : string) (data : option JSON)
    (params : option (gmap string ParamValue)) (retry_count : Z) (w : World)
    (cls msg : string) :
  let req := request_of self method endpoint data params in
  session_request (attempts (trace w)) req = Raises (PyException cls msg) ->
  _request session_request duration self method endpoint data params retry_count w =
    (Raise (Foreign (PyException cls msg)),
     {| now := now w + duration (attempts (trace w));
        trace := trace w ++ [Sent req] |}).
Proof.
  intros req Hraise.
  rewrite request_settled; fold req; rewrite Hraise; reflexivity.
Qed.

(** X5. Worst case of one call: with [max_retries = N] a run sleeps at most
    [2 ^ N - 1] in total, and when no transport call takes longer than
    [D] the whole run takes at most [(N + 1) * D + 2 ^ N - 1]. *)
Theorem request_latency_bound
    (session_request : nat -> Request -> Transport) (duration : nat -> Z)
    (self : OuroborosClient) (method endpoint : string) (data : option JSON)
    (params : option (gmap string ParamValue)) (w : World) (D : Z) :
  0 <= max_retries self ->
  0 <= D ->
  (forall n, duration n <= D) ->
  let res := _request session_request duration self method endpoint data params 0 w in
  total (sleeps (trace (snd res))) - total (sleeps (trace w)) <= 2 ^ max_retries self - 1 /\
  now (snd res) - now w <= (max_retries self + 1) * D + 2 ^ max_retries self - 1.
Proof.
  intros HN HD Hdur res.
  destruct (request_clock session_request duration self method endpoint data params
              (Z.to_nat (max_retries self - 0)) 0 w eq_refl)
    as (k & Hk & Htr & Hnow).
  fold res in Htr, Hnow.
  assert (Hpow : 2 ^ Z.of_nat k <= 2 ^ max_retries self)
    by (apply Z.pow_le_mono_r; lia).
  rewrite Htr, sleeps_app, total_app, Hnow, time_of_backoff, total_sleeps_backoff.
  pose proof (total_map_le duration D (seq (attempts (trace w)) (S k)) Hdur) as Hsum.
  rewrite length_seq in Hsum.
  split; [lia|]. nia.
Qed.

(** Where an [APIError] of [_request] comes from: an HTTP response with a
    status of at least 400, whose code it carries, or the exhausted
    retries, with no code and no details. *)
Lemma request_api_error_origin (session_request : nat -> Request -> Transport)
    (duration : nat -> Z) self method endpoint data params retry_count w
    message status details :
  fst (_request session_request duration self method endpoint data params retry_count w) =
    Raise (APIError message status details) ->
  (exists code, status = Some code /\ 400 <= code) \/
  (status = None /\ details = empty_dict /\
   exists e, message = JString ("Network error: " +:+ e)).
Proof.
  destruct (request_run session_request duration self method endpoint data params
              (Z.to_nat (max_retries self - retry_count)) retry_count w eq_refl)
    as (k & _ & _ & _ & Hres & _).
  rewrite Hres. clear Hres.
  destruct (session_request _ _) as [[e|cls msg]|response]; simpl.
  - intros H. injection H as <- <- <-. right. repeat split. eexists. reflexivity.
  - discriminate.
  - unfold handle_response.
    destruct (Z.geb_spec (status_code response) 400) as [Hge|Hlt].
    + destruct (if negb _ then _ else _) as [[e|cls msg]|d]; simpl.
      * intros H. injection H as <- <- <-. right. repeat split. eexists. reflexivity.
      * discriminate.
      * intros H. injection H as <- <- <-. left. eexists. split; [reflexivity | lia].
    + destruct (json response) as [[e|cls msg]|v]; simpl.
      * intros H. injection H as <- <- <-. right. repeat split. eexists. reflexivity.
      * discriminate.
      * discriminate.
Qed.

(** X6. How an [APIError] raised by [_request] prints: an HTTP error always
    shows its status code in brackets, the network error never does. *)
Theorem api_error_str_of_request (session_request : nat -> Request -> Transport)
    (duration : nat -> Z) (py_repr : JSON -> string) (self : OuroborosClient)
    (method endpoint : string) (data : option JSON)
    (params : option (gmap string ParamValue)) (retry_count : Z) (w : World)
    (message : JSON) (status : option Z) (details : JSON) :
  fst (_request session_request duration self method endpoint data params retry_count w) =
    Raise (APIError message status details) ->
  (exists code,
     status = Some code /\ 400 <= code /\
     APIError_str py_repr message status =
       "API Error [" +:+ str_of_int code +:+ "]: " +:+ py_str py_repr message) \/
  (exists e,
     status = None /\ message = JString ("Network error: " +:+ e) /\
     APIError_str py_repr message status = "API Error: Network error: " +:+ e).
Proof.
  intros H. apply request_api_error_origin in H.
  destruct H as [(code & -> & Hcode)|(-> & _ & e & ->)].
  - left. exists code. repeat split; [exact Hcode|].
    unfold APIError_str. destruct (Z.eqb_spec code 0); [lia | reflexivity].
  - right. exists e. repeat split.
Qed.

(** X7. The [details] of the [APIError] raised for an HTTP error: [{}] for an
    empty body, the parsed body when it is truthy, and [{}] again for a
    body that parses to a falsy value ([null], [0], [""], [[]], [{}]). *)
Theorem http_error_details (session_request : nat -> Request -> Transport)
    (duration : nat -> Z) (self : OuroborosClient) (method endpoint : string)
    (data : option JSON) (params : option (gmap string ParamValue))
    (retry_count : Z) (w : World) (response : Response) :
  let req := request_of self method endpoint data params in
  let w1 := {| now := now w + duration (attempts (trace w));
               trace := trace w ++ [Sent req] |} in
  let raised := fun details =>
    (Raise (APIError (extract_error_message response)
              (Some (status_code response)) details), w1) in
  session_request (attempts (trace w)) req = Responds response ->
  400 <= status_code response ->
  (content response = "" ->
   _request session_request duration self method endpoint data params retry_count w =
     raised empty_dict) /\
  (forall v, content response <> "" -> json response = inr v ->
     _request session_request duration self method endpoint data params retry_count w =
       raised (if py_bool v then v else empty_dict)).
Proof.
  intros req w1 raised Hresp Hcode.
  assert (Hh : forall details,
            handle_response response =
              Raise (APIError (extract_error_message response)
                       (Some (status_code response)) details) ->
            _request session_request duration self method endpoint data params
              retry_count w = raised details).
  { intros details Hd.
    rewrite request_settled; fold req; rewrite Hresp; simpl; rewrite Hd; reflexivity. }
  split.
  - intros Hempty. apply Hh. unfold handle_response.
    destruct (Z.geb_spec (status_code response) 400); [|lia].
    rewrite Hempty. reflexivity.
  - intros v Hne Hjson. apply Hh. unfold handle_response.
    destruct (Z.geb_spec (status_code response) 400); [|lia].
    destruct (String.eqb_spec (content response) ""); [contradiction|].
    simpl. rewrite Hjson. reflexivity.
Qed.

(** ** Further properties of the constructor *)

Lemma append_assoc_string (a b c : string) : (a +:+ b) +:+ c = a +:+ (b +:+ c).
Proof.
  induction a as [|x a IH]; [reflexivity|].
  change (String x ((a +:+ b) +:+ c) = String x (a +:+ (b +:+ c))).
  f_equal. exact IH.
Qed.

Lemma append_empty_r (a : string) : a +:+ "" = a.
Proof.
  induction a as [|x a IH]; [reflexivity|].
  change (String x (a +:+ "") = String x a). f_equal. exact IH.
Qed.

Lemma slashes_snoc n : slashes (S n) = slashes n +:+ "/".
Proof.
  induction n as [|n IH]; [reflexivity|].
  change (String "/"%char (slashes (S n)) = String "/"%char (slashes n +:+ "/")).
  f_equal. exact IH.
Qed.

Lemma rstrip_decompose b : exists n, b = rstrip "/" b +:+ slashes n.
Proof.
  induction b as [|a b [n IH]].
  - exists 0%nat. reflexivity.
  - cbn [rstrip]. destruct (rstrip "/" b) as [|y r] eqn:Hr.
    + change ("" +:+ slashes n) with (slashes n) in IH.
      destruct (Ascii.eqb_spec a "/") as [->|Hne].
      * exists (S n). rewrite IH at 1. reflexivity.
      * exists n. rewrite IH at 1. reflexivity.
    + exists n. rewrite IH at 1. reflexivity.
Qed.

(** X8. The stored base URL is the argument without its trailing slashes and
    nothing else is removed: the argument is the stored URL followed by
    slashes only; the stored URL does not end in a slash; an argument
    that does not end in a slash is stored unchanged; and normalising a
    stored URL again changes nothing. *)
Theorem base_url_normal_form (b : string) (timeout max_retries : Z) :
  let stored := api_base_url (init b timeout max_retries) in
  (exists n, b = stored +:+ slashes n) /\
  (forall s, stored <> s +:+ "/") /\
  ((forall s, b <> s +:+ "/") -> stored = b) /\
  init stored timeout max_retries = init b timeout max_retries.
Proof.
  intros stored. unfold stored, init. cbn [api_base_url].
  destruct (rstrip_decompose b) as [n Hn].
  split; [exists n; exact Hn|].
  split; [intros s; apply rstrip_no_trailing|]. split.
  - intros Hno. destruct n as [|n].
    + rewrite Hn at 2. simpl. rewrite append_empty_r. reflexivity.
    + exfalso. apply (Hno (rstrip "/" b +:+ slashes n)).
      rewrite append_assoc_string, <- slashes_snoc. exact Hn.
  - f_equal. rewrite Hn at 2. rewrite rstrip_trailing_slashes. reflexivity.
Qed.

(** ** Further properties of the poller *)

Section Waiting.

Variable session_request : nat -> Request -> Transport.
Variable duration : nat -> Z.
Variable py_repr : JSON -> string.

#[local] Abbreviation request := (_request session_request duration).
#[local] Abbreviation loop := (wait_loop session_request duration py_repr).
#[local] Abbreviation status_of := (get_execution_status session_request duration).
#[local] Abbreviation info_of := (get_execution_info session_request duration).

(** A request grows the trace by the events of its attempts. *)
Lemma request_trace self method endpoint data params w :
  exists k,
    trace (snd (request self method endpoint data params 0 w)) =
    trace w ++ backoff_events (request_of self method endpoint data params) 0 k.
Proof.
  destruct (request_run session_request duration self method endpoint data params
              (Z.to_nat (max_retries self - 0)) 0 w eq_refl)
    as (k & _ & Htr & _).
  exists k. exact Htr.
Qed.

(** When no transport call takes negative time, a request does not set
    the clock back. *)
Lemma request_clock_monotone self method endpoint data params w :
  (forall n, 0 <= duration n) ->
  now w <= now (snd (request self method endpoint data params 0 w)).
Proof.
  intros Hdur.
  destruct (request_clock session_request duration self method endpoint data params
              (Z.to_nat (max_retries self - 0)) 0 w eq_refl)
    as (k & _ & _ & Hnow).
  rewrite Hnow, time_of_backoff, total_sleeps_backoff.
  pose proof (total_map_nonneg duration (seq (attempts (trace w)) (S k)) Hdur).
  assert (0 < 2 ^ Z.of_nat k) by (apply Z.pow_pos_nonneg; lia).
  lia.
Qed.

(** [n] polls in progress are [n] iterations of the loop. *)
Lemma wait_loop_polled self execution_id poll_interval max_wait start_time n w w' :
  0 <= poll_interval ->
  polled session_request duration self execution_id poll_interval max_wait
    start_time n w w' ->
  forall fuel,
    loop (n + fuel)%nat self execution_id poll_interval max_wait start_time w =
    loop fuel self execution_id poll_interval max_wait start_time w'.
Proof.
  intros Hpoll Hpolled.
  induction Hpolled as [w0 | m w0 status w1 w2 Hd Hf Ht _ IH]; intros fuel.
  - reflexivity.
  - change (S m + fuel)%nat with (S (m + fuel)).
    rewrite (wait_loop_fetched session_request duration py_repr _ self execution_id
               poll_interval max_wait start_time w0 status w1 Hd Hf).
    unfold terminal in Ht. cbn zeta.
    destruct (py_eq_str _ "completed"); [discriminate|].
    destruct (py_eq_str _ "failed"); [discriminate|].
    destruct (py_eq_str _ "cancelled"); [discriminate|].
    rewrite sleep_nonneg by exact Hpoll. apply IH.
Qed.

(** With a positive [poll_interval] and transport calls that take no
    negative time, an iteration budget that outlasts the deadline always
    yields an outcome. *)
Lemma wait_loop_enough self execution_id poll_interval max_wait start_time :
  0 < poll_interval ->
  (forall n, 0 <= duration n) ->
  forall fuel w,
    now w - start_time + Z.of_nat fuel * poll_interval > max_wait ->
    exists r,
      loop (S fuel) self execution_id poll_interval max_wait start_time w = Some r.
Proof.
  intros Hpoll Hdur.
  induction fuel as [|fuel IH]; intros w Hbudget.
  - rewrite wait_loop_deadline by lia. eexists. reflexivity.
  - destruct (Z_le_gt_dec (now w - start_time) max_wait) as [Hle|Hgt];
      [|rewrite wait_loop_deadline by lia; eexists; reflexivity].
    pose proof (request_clock_monotone self "GET" ("/executions/" +:+ execution_id)
                  None None w Hdur) as Hmono.
    fold (status_of self execution_id w) in Hmono.
    cbn [wait_loop].
    rewrite Z.gtb_ltb. destruct (Z.ltb_spec max_wait (now w - start_time)); [lia|].
    destruct (status_of self execution_id w) as [[status|e] w1];
      [|eexists; reflexivity].
    cbn [snd] in Hmono.
    destruct (py_get status "status" JNull) as [execution_status|e];
      [|eexists; reflexivity].
    destruct (py_eq_str execution_status "completed"); [eexists; reflexivity|].
    destruct (py_eq_str execution_status "failed").
    { destruct (py_get status "error" _); eexists; reflexivity. }
    destruct (py_eq_str execution_status "cancelled"); [eexists; reflexivity|].
    rewrite sleep_nonneg by lia.
    apply IH. cbn [now]. lia.
Qed.

End Waiting.

(** X9. With a positive [poll_interval] and transport calls that take no
    negative time, [wait_for_execution] always ends: a budget of
    [max_wait / poll_interval + 2] iterations, or any larger one, yields
    an outcome.  With a negative [max_wait] the first iteration already
    raises the timeout error, and nothing is sent. *)
Theorem wait_terminates (session_request : nat -> Request -> Transport)
    (duration : nat -> Z) (py_repr : JSON -> string) (self : OuroborosClient)
    (execution_id : string) (poll_interval max_wait : Z) (w : World) :
  0 < poll_interval ->
  (forall n, 0 <= duration n) ->
  (forall fuel,
     (Z.to_nat (max_wait / poll_interval) + 2 <= fuel)%nat ->
     exists r,
       wait_for_execution session_request duration py_repr fuel self execution_id
         poll_interval max_wait w = Some r) /\
  (max_wait < 0 ->
   forall fuel,
     wait_for_execution session_request duration py_repr (S fuel) self execution_id
       poll_interval max_wait w = Some (Raise (timeout_error max_wait), w)).
Proof.
  intros Hpoll Hdur. split.
  - intros fuel Hfuel. unfold wait_for_execution.
    destruct fuel as [|fuel]; [lia|].
    apply wait_loop_enough; [exact Hpoll | exact Hdur |].
    assert (Hf : max_wait / poll_interval + 1 <= Z.of_nat fuel).
    { lia. }
    pose proof (Z.mod_pos_bound max_wait poll_interval Hpoll) as Hmod.
    pose proof (Z.div_mod max_wait poll_interval ltac:(lia)) as Hdiv.
    nia.
  - intros Hneg fuel. unfold wait_for_execution.
    apply wait_loop_deadline. lia.
Qed.

(** X10. A failure of the status fetch ends the wait at once: after any number
    of polls in progress, an exception raised by [get_execution_status]
    leaves [wait_for_execution] unchanged, with no sleep after it, and a
    status document that is not a JSON object ends it with the
    [AttributeError] of [status.get]. *)
Theorem wait_aborts_on_fetch_failure
    (session_request : nat -> Request -> Transport) (duration : nat -> Z)
    (py_repr : JSON -> string) (self : OuroborosClient) (execution_id : string)
    (poll_interval max_wait start_time : Z) (n : nat) (w w' : World) :
  0 <= poll_interval ->
  polled session_request duration self execution_id poll_interval max_wait
    start_time n w w' ->
  now w' - start_time <= max_wait ->
  let loop := fun fuel w =>
    wait_loop session_request duration py_repr fuel self execution_id
      poll_interval max_wait start_time w in
  (forall e w1,
     get_execution_status session_request duration self execution_id w' = (Raise e, w1) ->
     forall fuel, loop (n + S fuel)%nat w = Some (Raise e, w1)) /\
  (forall v w1,
     get_execution_status session_request duration self execution_id w' = (Return v, w1) ->
     (forall m, v <> JObject m) ->
     forall fuel,
       loop (n + S fuel)%nat w =
         Some (AttributeError "object has no attribute 'get'", w1)).
Proof.
  intros Hpoll Hpolled Hdeadline loop.
  assert (Hrun := wait_loop_polled session_request duration py_repr self execution_id
                    poll_interval max_wait start_time n w w' Hpoll Hpolled).
  split.
  - intros e w1 Hfetch fuel. unfold loop. rewrite Hrun. cbn [wait_loop].
    rewrite Z.gtb_ltb. destruct (Z.ltb_spec max_wait (now w' - start_time)); [lia|].
    rewrite Hfetch. reflexivity.
  - intros v w1 Hfetch Hnot fuel. unfold loop. rewrite Hrun. cbn [wait_loop].
    rewrite Z.gtb_ltb. destruct (Z.ltb_spec max_wait (now w' - start_time)); [lia|].
    rewrite Hfetch.
    destruct v as [| b | z | q | s | l | m]; try reflexivity.
    exfalso. exact (Hnot m eq_refl).
Qed.

Lemma Forall_sent_backoff (P : Request -> Prop) req rc k :
  P req -> Forall P (sent_requests (backoff_events req rc k)).
Proof.
  intros HP. rewrite sent_requests_backoff.
  apply Forall_forall. intros x Hx. apply elem_of_replicate in Hx.
  destruct Hx as [-> _]. exact HP.
Qed.

(** X11. [wait_for_execution] only reads: whatever the outcome, the trace is
    extended, never rewritten, and every request sent is the [GET] of the
    status endpoint or the [GET] of the info endpoint of that execution,
    without body or query; in particular it never cancels anything. *)
Theorem wait_only_reads (session_request : nat -> Request -> Transport)
    (duration : nat -> Z) (py_repr : JSON -> string) (self : OuroborosClient)
    (execution_id : string) (poll_interval max_wait start_time : Z) :
  let status_request :=
    request_of self "GET" ("/executions/" +:+ execution_id) None None in
  let info_request :=
    request_of self "GET" ("/executions/" +:+ execution_id +:+ "/info") None None in
  forall fuel w r,
    wait_loop session_request duration py_repr fuel self execution_id
      poll_interval max_wait start_time w = Some r ->
    exists new,
      trace (snd r) = trace w ++ new /\
      Forall (fun q => q = status_request \/ q = info_request) (sent_requests new).
Proof.
  intros status_request info_request.
  induction fuel as [|fuel IH]; intros w r Hr; [discriminate|].
  cbn [wait_loop] in Hr.
  destruct (now w - start_time >? max_wait).
  { injection Hr as <-. exists []. cbn. rewrite app_nil_r. split; [reflexivity | constructor]. }
  destruct (request_trace session_request duration self "GET"
              ("/executions/" +:+ execution_id) None None w) as [k Hk].
  fold status_request in Hk.
  fold (get_execution_status session_request duration self execution_id w) in Hk.
  assert (Hstatus : Forall (fun q => q = status_request \/ q = info_request)
                      (sent_requests (backoff_events status_request 0 k)))
    by (apply Forall_sent_backoff; left; reflexivity).
  destruct (get_execution_status session_request duration self execution_id w)
    as [[status|e] w1]; cbn [snd] in Hk.
  2:{ injection Hr as <-. eexists. split; [exact Hk | exact Hstatus]. }
  destruct (py_get status "status" JNull) as [execution_status|e].
  2:{ injection Hr as <-. eexists. split; [exact Hk | exact Hstatus]. }
  destruct (py_eq_str execution_status "completed").
  { injection Hr as <-.
    destruct (request_trace session_request duration self "GET"
                ("/executions/" +:+ execution_id +:+ "/info") None None w1) as [k' Hk'].
    fold info_request in Hk'.
    fold (get_execution_info session_request duration self execution_id w1) in Hk'.
    eexists. split.
    - rewrite Hk', Hk, <- app_assoc. reflexivity.
    - rewrite sent_requests_app. apply Forall_app. split; [exact Hstatus|].
      apply Forall_sent_backoff. right. reflexivity. }
  destruct (py_eq_str execution_status "failed").
  { destruct (py_get status "error" _); injection Hr as <-;
      eexists; (split; [exact Hk | exact Hstatus]). }
  destruct (py_eq_str execution_status "cancelled").
  { injection Hr as <-. eexists. split; [exact Hk | exact Hstatus]. }
  unfold sleep in Hr. destruct (poll_interval <? 0).
  { injection Hr as <-. eexists. split; [exact Hk | exact Hstatus]. }
  apply IH in Hr. destruct Hr as (new & Htr & Hall). cbn [trace] in Htr.
  eexists. split.
  - rewrite Htr, Hk, <- !app_assoc. reflexivity.
  - rewrite !sent_requests_app. apply Forall_app. split; [exact Hstatus|].
    cbn. exact Hall.
Qed.

(** ** Further properties of the endpoint wrappers *)

Lemma response_get_spec key (r : Res JSON * World) :
  snd (response_get key r) = snd r /\
  (forall e, fst r = Raise e -> fst (response_get key r) = Raise e) /\
  (forall body, fst r = Return (JObject body) ->
     fst (response_get key r) = Return (default (JArray []) (body !! key))) /\
  (forall v, fst r = Return v -> (forall body, v <> JObject body) ->
     fst (response_get key r) = AttributeError "object has no attribute 'get'").
Proof.
  destruct r as [[v|e] w']; cbn; repeat split; try discriminate.
  - intros body H. injection H as ->. reflexivity.
  - intros v' H Hnot. injection H as <-.
    destruct v as [| b | z | q | s | l | m]; try reflexivity.
    exfalso. exact (Hnot m eq_refl).
  - intros e' H. exact H.
Qed.

(** X12. The nine listing operations ([list_graphs], [list_workflows],
    [get_execution_events], [get_execution_steps], [list_executions],
    [list_mcp_servers], [get_mcp_tools], [list_workspace_files],
    [list_checkpoints]) make one [GET] request of their endpoint and
    answer from its outcome: an exception of the request is passed on
    unchanged; from a JSON object they return the entry under their key
    as it is, and the empty list when the key is missing; a response that
    is not a JSON object raises [AttributeError]. *)
Theorem listing_results (session_request : nat -> Request -> Transport)
    (duration : nat -> Z) (self : OuroborosClient) (op : Listing) (w : World) :
  let res :=
    _request session_request duration self "GET" (listing_endpoint op) None
      (listing_params op) 0 w in
  let out := run_listing session_request duration self op w in
  snd out = snd res /\
  (forall e, fst res = Raise e -> fst out = Raise e) /\
  (forall body, fst res = Return (JObject body) ->
     fst out = Return (default (JArray []) (body !! listing_key op))) /\
  (forall body, fst res = Return (JObject body) -> body !! listing_key op = None ->
     fst out = Return (JArray [])) /\
  (forall v, fst res = Return v -> (forall body, v <> JObject body) ->
     fst out = AttributeError "object has no attribute 'get'").
Proof.
  intros res out.
  assert (Hout : out = response_get (listing_key op) res).
  { unfold out, res. destruct op; reflexivity. }
  rewrite Hout.
  destruct (response_get_spec (listing_key op) res) as (H1 & H2 & H3 & H4).
  repeat split; try assumption.
  intros body Hb Hnone. rewrite (H3 body Hb), Hnone. reflexivity.
Qed.

Lemma lookup_set_if k x (params : gmap string ParamValue) k' :
  set_if k x params !! k' =
    if decide (k = k')
    then (if truthy_str x then PStr <$> x else params !! k')
    else params !! k'.
Proof.
  unfold set_if. destruct x as [s|]; cbn.
  - destruct (negb (String.eqb s "")).
    + rewrite lookup_insert. destruct (decide (k = k')); reflexivity.
    + destruct (decide (k = k')); reflexivity.
  - destruct (decide (k = k')); reflexivity.
Qed.

(** X13. [cancel_execution] always posts a JSON object to the cancel endpoint
    of the execution.  With a non-empty reason the object holds that
    reason and [graceful = true] and nothing else; without a reason, or
    with the empty string as reason, it is the empty object and
    [graceful] is not set. *)
Theorem cancel_execution_body (session_request : nat -> Request -> Transport)
    (duration : nat -> Z) (self : OuroborosClient) (execution_id : string)
    (reason : option string) (w : World) :
  exists (k : nat) (body : gmap string JSON),
    trace (snd (cancel_execution session_request duration self execution_id reason w)) =
      trace w ++
      backoff_events
        (request_of self "POST" ("/executions/" +:+ execution_id +:+ "/cancel")
           (Some (JObject body)) None) 0 k /\
    body !! "reason" = (if truthy_str reason then JString <$> reason else None) /\
    body !! "graceful" = (if truthy_str reason then Some (JBool true) else None) /\
    (forall key, key <> "reason" -> key <> "graceful" -> body !! key = None) /\
    (reason = None \/ reason = Some "" -> body = ∅).
Proof.
  destruct (request_trace session_request duration self "POST"
              ("/executions/" +:+ execution_id +:+ "/cancel")
              (Some (cancel_execution_data reason)) None w) as [k Hk].
  exists k. unfold cancel_execution. unfold cancel_execution_data in *.
  destruct reason as [s|]; cbn [truthy_str] in *.
  - destruct (String.eqb_spec s "") as [->|Hne]; cbn [negb] in *.
    + exists ∅. repeat split;
        solve [exact Hk | apply lookup_empty | intros; apply lookup_empty | reflexivity].
    + eexists. split; [exact Hk|]. cbn [default fmap option_fmap option_map].
      split; [rewrite lookup_insert_ne by discriminate; apply lookup_insert_eq|].
      split; [apply lookup_insert_eq|].
      split.
      * intros key H1 H2.
        rewrite lookup_insert_ne by congruence.
        rewrite lookup_insert_ne by congruence. apply lookup_empty.
      * intros [H|H]; [discriminate | injection H as ->; contradiction].
  - exists ∅. repeat split;
      solve [exact Hk | apply lookup_empty | intros; apply lookup_empty | reflexivity].
Qed.

Lemma or_empty_dict_spec (o : option JSON) :
  (or_empty_dict o = empty_dict \/ py_bool (or_empty_dict o) = true) /\
  (o = None -> or_empty_dict o = empty_dict) /\
  (forall m, o = Some (JObject m) -> or_empty_dict o = JObject m).
Proof.
  unfold or_empty_dict. split; [|split].
  - destruct o as [d|]; [|left; reflexivity].
    destruct (py_bool d) eqn:Hd; [right; exact Hd | left; reflexivity].
  - intros ->. reflexivity.
  - intros m ->. cbn. destruct (decide (m = ∅)) as [->|Hne].
    + rewrite bool_decide_eq_true_2 by reflexivity. reflexivity.
    + rewrite bool_decide_eq_false_2 by exact Hne. reflexivity.
Qed.

(** X14. The payloads of [execute_graph], [execute_workflow] and
    [execute_mcp_tool] always carry a [config] (and [metadata]) entry
    that is a usable value: a dict argument is sent as it is, and an
    omitted argument, like any falsy one, is sent as [{}] and never as
    [null]. *)
Theorem execute_payload_defaults (config metadata : option JSON) :
  let sent := fun (o : option JSON) (v : JSON) =>
    (v = empty_dict \/ py_bool v = true) /\
    (o = None -> v = empty_dict) /\
    (forall m, o = Some (JObject m) -> v = JObject m) in
  (forall input_data async_execution, exists body c,
     execute_graph_payload input_data config async_execution = JObject body /\
     body !! "input" = Some input_data /\
     body !! "async" = Some (JBool async_execution) /\
     body !! "config" = Some c /\ sent config c) /\
  (forall inputs, exists body c m,
     execute_workflow_payload inputs config metadata = JObject body /\
     body !! "inputs" = Some inputs /\
     body !! "config" = Some c /\ sent config c /\
     body !! "metadata" = Some m /\ sent metadata m) /\
  (forall tool_id input_data, exists body c,
     execute_mcp_tool_payload tool_id input_data config = JObject body /\
     body !! "tool_id" = Some (JString tool_id) /\
     body !! "input" = Some input_data /\
     body !! "config" = Some c /\ sent config c).
Proof.
  intros sent.
  assert (Hc : sent config (or_empty_dict config)) by apply or_empty_dict_spec.
  assert (Hm : sent metadata (or_empty_dict metadata)) by apply or_empty_dict_spec.
  split; [|split].
  - intros input_data async_execution. eexists. exists (or_empty_dict config).
    split; [reflexivity|].
    split; [rewrite !lookup_insert_ne by discriminate; apply lookup_insert_eq|].
    split; [apply lookup_insert_eq|].
    split; [rewrite lookup_insert_ne by discriminate; apply lookup_insert_eq | exact Hc].
  - intros inputs. eexists. exists (or_empty_dict config), (or_empty_dict metadata).
    split; [reflexivity|].
    split; [rewrite !lookup_insert_ne by discriminate; apply lookup_insert_eq|].
    split; [rewrite lookup_insert_ne by discriminate; apply lookup_insert_eq|].
    split; [exact Hc|].
    split; [apply lookup_insert_eq | exact Hm].
  - intros tool_id input_data. eexists. exists (or_empty_dict config).
    split; [reflexivity|].
    split; [rewrite !lookup_insert_ne by discriminate; apply lookup_insert_eq|].
    split; [rewrite lookup_insert_ne by discriminate; apply lookup_insert_eq|].
    split; [apply lookup_insert_eq | exact Hc].
Qed.

Ltac case_filters :=
  unfold optional_key, set_if;
  repeat match goal with
         | |- context [truthy_str ?x] => is_var x; destruct x; cbn [truthy_str]
         | |- context [truthy_list ?x] => is_var x; destruct x as [[|? ?]|]; cbn [truthy_list]
         end;
  repeat match goal with
         | |- context [String.eqb ?s ""] => destruct (String.eqb s "")
         end;
  cbn [negb default fmap option_fmap option_map];
  repeat split; reflexivity.

(** X15. The query dicts of the wrappers: the paging and mandatory entries are
    always present ([limit], [offset], [granularity], and [status] of
    [list_workflows] even when it is the empty string), and each optional
    filter is present exactly when its argument is a non-empty string, so
    an empty string is dropped like [None]; without filters
    [get_step_execution_metrics] and [get_mcp_tools] send an empty query
    dict. *)
Theorem optional_filters (category search workflow_slug execution_id event_type
    start_date end_date directory extension server status_filter : option string)
    (tags : option (list string)) (status granularity : string) (limit offset : Z) :
  (let p := list_graphs_params category tags limit offset in
   p !! "limit" = Some (PInt limit) /\ p !! "offset" = Some (PInt offset) /\
   optional_key p "category" category /\
   p !! "tags" = (if truthy_list tags
                  then Some (PStr (str_join "," (default [] tags))) else None)) /\
  (let p := list_workflows_params category tags search status limit offset in
   p !! "limit" = Some (PInt limit) /\ p !! "offset" = Some (PInt offset) /\
   p !! "status" = Some (PStr status) /\
   optional_key p "category" category /\ optional_key p "search" search /\
   p !! "tags" = (if truthy_list tags
                  then Some (PStr (str_join "," (default [] tags))) else None)) /\
  (let p := get_workflow_analytics_params start_date end_date granularity in
   p !! "granularity" = Some (PStr granularity) /\
   optional_key p "start_date" start_date /\ optional_key p "end_date" end_date) /\
  (let p := get_execution_events_params event_type limit offset in
   p !! "limit" = Some (PInt limit) /\ p !! "offset" = Some (PInt offset) /\
   optional_key p "event_type" event_type) /\
  (let p := list_executions_params workflow_slug status_filter limit in
   p !! "limit" = Some (PInt limit) /\
   optional_key p "workflow_slug" workflow_slug /\
   optional_key p "status" status_filter) /\
  (let p := get_step_execution_metrics_params workflow_slug start_date end_date in
   optional_key p "workflow_slug" workflow_slug /\
   optional_key p "start_date" start_date /\ optional_key p "end_date" end_date /\
   (truthy_str workflow_slug = false -> truthy_str start_date = false ->
    truthy_str end_date = false -> p = ∅)) /\
  (let p := get_mcp_tools_params server in
   optional_key p "server" server /\ (truthy_str server = false -> p = ∅)) /\
  (let p := list_workspace_files_params directory extension limit in
   p !! "limit" = Some (PInt limit) /\
   optional_key p "directory" directory /\ optional_key p "extension" extension) /\
  (let p := list_checkpoints_params workflow_slug execution_id limit offset in
   p !! "limit" = Some (PInt limit) /\ p !! "offset" = Some (PInt offset) /\
   optional_key p "workflow_slug" workflow_slug /\
   optional_key p "execution_id" execution_id).
Proof.
  split; [unfold list_graphs_params; case_filters|].
  split; [unfold list_workflows_params; case_filters|].
  split; [unfold get_workflow_analytics_params; case_filters|].
  split; [unfold get_execution_events_params; case_filters|].
  split; [unfold list_executions_params; case_filters|].
  split.
  { cbv zeta. split; [|split; [|split]];
      try (unfold get_step_execution_metrics_params; case_filters).
    unfold get_step_execution_metrics_params, set_if.
    intros -> -> ->. reflexivity. }
  split.
  { cbv zeta. split; [unfold get_mcp_tools_params; case_filters|].
    unfold get_mcp_tools_params, set_if. intros ->. reflexivity. }
  split; [unfold list_workspace_files_params; case_filters|].
  unfold list_checkpoints_params; case_filters.
Qed.

(** X16. [check_health] answers [False], after the full retry schedule, when
    the service cannot be reached: with every transport call failing
    transiently it makes [max_retries + 1] attempts, sleeps
    [2 ^ max_retries - 1] in total and returns [False]; and an HTTP error
    answer with a body that is empty or parses makes it return [False]
    after a single attempt. *)
Theorem check_health_failures (session_request : nat -> Request -> Transport)
    (duration : nat -> Z) (self : OuroborosClient) (w : World) :
  0 <= max_retries self ->
  let req := request_of self "GET" "/health" None None in
  let health := check_health session_request duration self w in
  ((forall n, exists e, session_request n req = Raises (RequestException e)) ->
   fst health = Return false /\
   trace (snd health) =
     trace w ++ backoff_events req 0 (Z.to_nat (max_retries self)) /\
   total (sleeps (trace (snd health))) - total (sleeps (trace w)) =
     2 ^ max_retries self - 1) /\
  (forall response,
     session_request (attempts (trace w)) req = Responds response ->
     400 <= status_code response ->
     content response = "" \/ (exists v, json response = inr v) ->
     fst health = Return false /\ trace (snd health) = trace w ++ [Sent req]).
Proof.
  intros HN req health. split.
  - intros Hdown.
    destruct (request_run session_request duration self "GET" "/health" None None
                (Z.to_nat (max_retries self - 0)) 0 w eq_refl)
      as (k & Hk & Htr & _ & Hres & Hlast).
    fold req in Htr, Hres, Hlast.
    destruct (Hdown (attempts (trace w) + k)%nat) as [e He].
    rewrite He in Hres, Hlast. simpl in Hres, Hlast.
    specialize (Hlast ltac:(discriminate)).
    rewrite Z.sub_0_r in Hlast. subst k.
    unfold health, check_health.
    destruct (_request session_request duration self "GET" "/health" None None 0 w)
      as [r w'] eqn:Hreq.
    cbn [fst snd] in Htr, Hres. subst r. cbn [fst snd network_error APIError_init].
    split; [reflexivity|]. split; [exact Htr|].
    rewrite Htr, sleeps_app, total_app, total_sleeps_backoff, Z2Nat.id by lia. lia.
  - intros response Hresp Hcode Hbody.
    destruct (http_error_single_attempt session_request duration self "GET" "/health"
                None None w response Hresp Hcode Hbody) as [details Hd].
    unfold health, check_health. rewrite Hd. split; reflexivity.
Qed.

(** X17. The executing operations are retried like any other request: when
    the first [k] attempts of [execute_graph], [execute_workflow] or
    [execute_mcp_tool] fail transiently (a timeout while waiting for the
    answer is such a failure) and the next one is answered, the same
    [POST] with the same payload has been sent [k + 1] times. *)
Theorem posts_are_resent (session_request : nat -> Request -> Transport)
    (duration : nat -> Z) (self : OuroborosClient) (w : World) (k : nat)
    (response : Response) (v : JSON) (name : string) (input_data : JSON)
    (config metadata : option JSON) (async_execution : bool) :
  Z.of_nat k <= max_retries self ->
  status_code response < 400 ->
  json response = inr v ->
  let resent := fun (req : Request) (run : Res JSON * World) =>
    (forall i, (i < k)%nat ->
       exists e, session_request (attempts (trace w) + i)%nat req =
                   Raises (RequestException e)) ->
    session_request (attempts (trace w) + k)%nat req = Responds response ->
    fst run = Return v /\
    sent_requests (trace (snd run)) = sent_requests (trace w) ++ replicate (S k) req in
  resent
    (request_of self "POST" ("/graphs/" +:+ name +:+ "/execute")
       (Some (execute_graph_payload input_data config async_execution)) None)
    (execute_graph session_request duration self name input_data config
       async_execution w) /\
  resent
    (request_of self "POST" ("/workflows/" +:+ name +:+ "/execute")
       (Some (execute_workflow_payload input_data config metadata)) None)
    (execute_workflow session_request duration self name input_data config metadata w) /\
  resent
    (request_of self "POST" "/mcp-tools/execute"
       (Some (execute_mcp_tool_payload name input_data config)) None)
    (execute_mcp_tool session_request duration self name input_data config w).
Proof.
  intros Hk Hcode Hjson resent.
  assert (Hgen : forall endpoint payload,
            resent (request_of self "POST" endpoint (Some payload) None)
              (_request session_request duration self "POST" endpoint (Some payload)
                 None 0 w)).
  { intros endpoint payload Hfail Hresp.
    set (req := request_of self "POST" endpoint (Some payload) None) in *.
    assert (Hb : try_block (session_request (attempts (trace w) + k)%nat req) = Return v).
    { rewrite Hresp. simpl. unfold handle_response.
      destruct (Z.geb_spec (status_code response) 400); [lia|].
      rewrite Hjson. reflexivity. }
    assert (Hrun := request_after_failures session_request duration self "POST" endpoint
                      (Some payload) None k 0 w).
    cbv zeta in Hrun. fold req in Hrun.
    rewrite Hrun.
    - rewrite Hb. cbn [fst snd trace]. split; [reflexivity|].
      rewrite sent_requests_app, sent_requests_backoff. reflexivity.
    - lia.
    - intros i Hi. destruct (Hfail i Hi) as [e He]. rewrite He. discriminate.
    - rewrite Hb. reflexivity. }
  split; [apply Hgen|]. split; apply Hgen.
Qed.

(** ** Further instances on the sample environments *)

Lemma success_first_attempt_details :
  let req := request_of default_client "GET" "/graphs/demo" None None in
  respond_always (ok_200 execution_details) (attempts (trace world0)) req =
    Responds (ok_200 execution_details) /\
  status_code (ok_200 execution_details) < 400 /\
  _request (respond_always (ok_200 execution_details)) no_delay default_client
    "GET" "/graphs/demo" None None 0 world0 =
    (Return execution_details,
     {| now := now world0 + no_delay (attempts (trace world0));
        trace := trace world0 ++ [Sent req] |}).
Proof.
  intros req.
  assert (Hcode : status_code (ok_200 execution_details) < 400) by reflexivity.
  split; [reflexivity|]. split; [exact Hcode|].
  exact (success_first_attempt (respond_always (ok_200 execution_details)) no_delay
           default_client "GET" "/graphs/demo" None None 0 world0
           (ok_200 execution_details) execution_details eq_refl Hcode eq_refl).
Defined.

Lemma recovers_after_two_failures :
  let req := request_of default_client "GET" "/graphs/demo" None None in
  let res := _request flaky no_delay default_client "GET" "/graphs/demo" None None 0 world0 in
  Z.of_nat 2 <= max_retries default_client /\
  fst res = Return execution_details /\
  trace (snd res) = trace world0 ++ backoff_events req 0 2 /\
  attempts (trace (snd res)) = (attempts (trace world0) + 2 + 1)%nat.
Proof.
  intros req res.
  assert (Hk : Z.of_nat 2 <= max_retries default_client) by (vm_compute; discriminate).
  assert (Hfail : forall i, (i < 2)%nat ->
            exists e, flaky (attempts (trace world0) + i)%nat req =
                        Raises (RequestException e)).
  { intros i Hi. destruct i as [|[|i]]; [eexists; reflexivity | eexists; reflexivity | lia]. }
  assert (Hcode : status_code (ok_200 execution_details) < 400) by reflexivity.
  pose proof (recovers_after_transient_failures flaky no_delay default_client
                "GET" "/graphs/demo" None None world0 2 (ok_200 execution_details)
                execution_details Hk Hfail eq_refl Hcode eq_refl)
    as (Hres & Htr & Hat & _).
  split; [exact Hk|]. split; [exact Hres|]. split; [exact Htr | exact Hat].
Defined.

Lemma foreign_exception_not_retried_broken :
  let req := request_of default_client "POST" "/mcp-tools/execute" None None in
  broken (attempts (trace world0)) req =
    Raises (PyException "TypeError" "Object of type set is not JSON serializable") /\
  _request broken no_delay default_client "POST" "/mcp-tools/execute" None None 0 world0 =
    (Raise (Foreign (PyException "TypeError" "Object of type set is not JSON serializable")),
     {| now := now world0 + no_delay (attempts (trace world0));
        trace := trace world0 ++ [Sent req] |}).
Proof.
  intros req. split; [reflexivity|].
  exact (foreign_exception_not_retried broken no_delay default_client
           "POST" "/mcp-tools/execute" None None 0 world0 _ _ eq_refl).
Defined.

Lemma request_latency_bound_refused :
  let res := _request refused no_delay default_client "GET" "/health" None None 0 world0 in
  0 <= max_retries default_client /\
  (forall n, no_delay n <= 0) /\
  total (sleeps (trace (snd res))) - total (sleeps (trace world0)) <=
    2 ^ max_retries default_client - 1 /\
  now (snd res) - now world0 <=
    (max_retries default_client + 1) * 0 + 2 ^ max_retries default_client - 1.
Proof.
  intros res.
  assert (HN : 0 <= max_retries default_client) by (vm_compute; discriminate).
  assert (HD : 0 <= 0) by discriminate.
  assert (Hdur : forall n, no_delay n <= 0) by (intros n; vm_compute; discriminate).
  split; [exact HN|]. split; [exact Hdur|].
  exact (request_latency_bound refused no_delay default_client "GET" "/health"
           None None world0 0 HN HD Hdur).
Defined.

Lemma api_error_str_json_404 :
  let message := JString "no such graph" in
  let details := JObject (<["message" := JString "no such graph"]> ∅) in
  fst (_request (respond_always json_404) no_delay default_client
         "GET" "/graphs/demo" None None 0 world0) =
    Raise (APIError message (Some 404) details) /\
  ((exists code,
      Some 404 = Some code /\ 400 <= code /\
      APIError_str no_repr message (Some 404) =
        "API Error [" +:+ str_of_int code +:+ "]: " +:+ py_str no_repr message) \/
   (exists e,
      Some 404 = None /\ message = JString ("Network error: " +:+ e) /\
      APIError_str no_repr message (Some 404) = "API Error: Network error: " +:+ e)).
Proof.
  intros message details.
  assert (H : fst (_request (respond_always json_404) no_delay default_client
                     "GET" "/graphs/demo" None None 0 world0) =
              Raise (APIError message (Some 404) details)) by (vm_compute; reflexivity).
  split; [exact H|].
  exact (api_error_str_of_request (respond_always json_404) no_delay no_repr
           default_client "GET" "/graphs/demo" None None 0 world0
           message (Some 404) details H).
Defined.

Lemma http_error_details_json_404 :
  let req := request_of default_client "GET" "/graphs/demo" None None in
  respond_always json_404 (attempts (trace world0)) req = Responds json_404 /\
  400 <= status_code json_404 /\
  _request (respond_always json_404) no_delay default_client
    "GET" "/graphs/demo" None None 0 world0 =
    (Raise (APIError (extract_error_message json_404) (Some (status_code json_404))
              (if py_bool (JObject (<["message" := JString "no such graph"]> ∅))
               then JObject (<["message" := JString "no such graph"]> ∅)
               else empty_dict)),
     {| now := now world0 + no_delay (attempts (trace world0));
        trace := trace world0 ++ [Sent req] |}).
Proof.
  intros req.
  assert (Hcode : 400 <= status_code json_404) by (vm_compute; discriminate).
  assert (Hne : content json_404 <> "") by discriminate.
  split; [reflexivity|]. split; [exact Hcode|].
  exact (proj2 (http_error_details (respond_always json_404) no_delay default_client
                  "GET" "/graphs/demo" None None 0 world0 json_404 eq_refl Hcode)
           _ Hne eq_refl).
Defined.

Lemma wait_terminates_three_polls :
  0 < 5 /\
  (forall n, 0 <= no_delay n) /\
  exists r,
    wait_for_execution three_polls no_delay no_repr 722 default_client "abc" 5 3600 world0 =
      Some r.
Proof.
  assert (Hpoll : 0 < 5) by reflexivity.
  assert (Hdur : forall n, 0 <= no_delay n) by (intros n; vm_compute; discriminate).
  assert (Hfuel : (Z.to_nat (3600 / 5) + 2 <= 722)%nat) by (vm_compute; lia).
  split; [exact Hpoll|]. split; [exact Hdur|].
  exact (proj1 (wait_terminates three_polls no_delay no_repr default_client "abc"
                  5 3600 world0 Hpoll Hdur) 722%nat Hfuel).
Defined.

Lemma wait_aborts_when_refused :
  let fetch := get_execution_status refused no_delay default_client "abc" world0 in
  0 <= 5 /\
  polled refused no_delay default_client "abc" 5 3600 0 0 world0 world0 /\
  now world0 - 0 <= 3600 /\
  fetch = (Raise (network_error "Connection refused"), snd fetch) /\
  forall fuel,
    wait_loop refused no_delay no_repr (0 + S fuel) default_client "abc" 5 3600 0 world0 =
      Some (Raise (network_error "Connection refused"), snd fetch).
Proof.
  intros fetch.
  assert (Hpoll : 0 <= 5) by discriminate.
  assert (Hpolled : polled refused no_delay default_client "abc" 5 3600 0 0 world0 world0)
    by apply polled_O.
  assert (Hdeadline : now world0 - 0 <= 3600) by (vm_compute; discriminate).
  assert (Hfetch : fetch = (Raise (network_error "Connection refused"), snd fetch))
    by (vm_compute; reflexivity).
  split; [exact Hpoll|]. split; [exact Hpolled|]. split; [exact Hdeadline|].
  split; [exact Hfetch|].
  exact (proj1 (wait_aborts_on_fetch_failure refused no_delay no_repr default_client
                  "abc" 5 3600 0 0 world0 world0 Hpoll Hpolled Hdeadline)
           _ _ Hfetch).
Defined.

Lemma wait_only_reads_three_polls :
  let status_request := request_of default_client "GET" "/executions/abc" None None in
  let info_request := request_of default_client "GET" "/executions/abc/info" None None in
  let r :=
    (Return execution_details,
     {| now := 10;
        trace := [Sent status_request; Slept 5; Sent status_request; Slept 5;
                  Sent status_request; Sent info_request] |}) in
  wait_loop three_polls no_delay no_repr 3 default_client "abc" 5 3600 0 world0 = Some r /\
  exists new,
    trace (snd r) = trace world0 ++ new /\
    Forall (fun q => q = status_request \/ q = info_request) (sent_requests new).
Proof.
  intros status_request info_request r.
  assert (Hr : wait_loop three_polls no_delay no_repr 3 default_client "abc" 5 3600 0
                 world0 = Some r) by (vm_compute; reflexivity).
  split; [exact Hr|].
  exact (wait_only_reads three_polls no_delay no_repr default_client "abc" 5 3600 0
           3%nat world0 r Hr).
Defined.

Lemma check_health_refused :
  let req := request_of default_client "GET" "/health" None None in
  let health := check_health refused no_delay default_client world0 in
  0 <= max_retries default_client /\
  (forall n, exists e, refused n req = Raises (RequestException e)) /\
  fst health = Return false /\
  trace (snd health) =
    trace world0 ++ backoff_events req 0 (Z.to_nat (max_retries default_client)) /\
  total (sleeps (trace (snd health))) - total (sleeps (trace world0)) =
    2 ^ max_retries default_client - 1.
Proof.
  intros req health.
  assert (HN : 0 <= max_retries default_client) by (vm_compute; discriminate).
  assert (Hdown : forall n, exists e, refused n req = Raises (RequestException e))
    by (intros n; eexists; reflexivity).
  split; [exact HN|]. split; [exact Hdown|].
  exact (proj1 (check_health_failures refused no_delay default_client world0 HN) Hdown).
Defined.

Lemma posts_are_resent_flaky :
  let req :=
    request_of default_client "POST" "/workflows/demo/execute"
      (Some (execute_workflow_payload (JObject ∅) None None)) None in
  let run := execute_workflow flaky no_delay default_client "demo" (JObject ∅) None None world0 in
  Z.of_nat 2 <= max_retries default_client /\
  fst run = Return execution_details /\
  sent_requests (trace (snd run)) = sent_requests (trace world0) ++ replicate 3 req.
Proof.
  intros req run.
  assert (Hk : Z.of_nat 2 <= max_retries default_client) by (vm_compute; discriminate).
  assert (Hcode : status_code (ok_200 execution_details) < 400) by reflexivity.
  assert (Hfail : forall i, (i < 2)%nat ->
            exists e, flaky (attempts (trace world0) + i)%nat req =
                        Raises (RequestException e)).
  { intros i Hi. destruct i as [|[|i]]; [eexists; reflexivity | eexists; reflexivity | lia]. }
  split; [exact Hk|].
  exact (proj1 (proj2 (posts_are_resent flaky no_delay default_client world0 2
                         (ok_200 execution_details) execution_details "demo" (JObject ∅)
                         None None false Hk Hcode eq_refl))
           Hfail eq_refl).
Defined.
